(** * Scada2Protocol: the mapping-driven transformation engine of [main.py]

    A shallow embedding of [parse_value], [make_header] and the row loop of
    [transform], together with the Python built-ins they rely on ([int],
    [float], [str], [str.split], ordered [dict]s), and the properties of the
    specification that can be settled on it.

    Conventions of the embedding:
    - Python values are the inductive [pyval]; a Python [float] is an IEEE-754
      binary64 number, represented by [spec_float] with precision 53 and
      maximal exponent 1024;
    - an exception is a value of [exn]; a computation that may raise returns
      a [result];
    - a Python [dict] is an association list in insertion order;
    - the ambient wall clock, the local time zone and the random source used
      by [make_header] are the explicit state [world];
    - [dateutil], [pytz] and the [repr] of floats are not part of the
      program: they are the interface [PyLib]. *)

From Stdlib Require Import ZArith List String Ascii Bool Lia.
From Stdlib Require Import Floats.SpecFloat.
From Stdlib Require Import Numbers.DecimalString Numbers.DecimalZ.
Import ListNotations.

Local Open Scope string_scope.
Local Open Scope Z_scope.

(** ** Exceptions and results *)

(** The exception classes the engine can raise.  [ValueError] carries a short
    reason, so that the two [raise ValueError(...)] of the program can be told
    apart from the ones raised by the built-ins. *)
Inductive exn : Type :=
| ValueError (reason : string)
| IndexError
| TypeError
| OverflowError
| LibraryError (reason : string).

Inductive result (A : Type) : Type :=
| Ok (a : A)
| Raise (e : exn).

Arguments Ok {A} a.
Arguments Raise {A} e.

Definition bind {A B : Type} (r : result A) (k : A -> result B) : result B :=
  match r with
  | Ok a => k a
  | Raise e => Raise e
  end.

Declare Scope py_scope.
Delimit Scope py_scope with py.
Notation "x <- r ;; k" := (bind r (fun x => k))
  (at level 61, r at next level, right associativity) : py_scope.
Local Open Scope py_scope.

Definition is_ok {A : Type} (r : result A) : bool :=
  match r with Ok _ => true | Raise _ => false end.

(** ** Binary64 floats *)

Module Float.

Definition prec : Z := 53.
Definition emax : Z := 1024.

Definition float : Type := spec_float.

Definition add : float -> float -> float := SFadd prec emax.
Definition mul : float -> float -> float := SFmul prec emax.
Definition div : float -> float -> float := SFdiv prec emax.

(** The float nearest to [n * 2^e] (ties to even); exact when [n] fits in
    53 bits and the exponent is in range. *)
Definition of_dyadic (n e : Z) : float := binary_normalize prec emax n e false.

Definition is_nan (f : float) : bool :=
  match f with S754_nan => true | _ => false end.

(** [float(n)] for a Python [int]: the nearest float, and [OverflowError]
    when the integer is beyond the range of a float. *)
Definition of_int (n : Z) : result float :=
  match binary_normalize prec emax n 0 false with
  | S754_infinity _ => Raise OverflowError
  | f => Ok f
  end.

(** The float nearest to [(-1)^s * m * 10^e], the value of a decimal
    literal; a literal too large rounds to an infinity. *)
Definition of_decimal (s : bool) (m e : Z) : float :=
  match m with
  | Zpos p =>
      if 0 <=? e
      then binary_normalize prec emax (cond_Zopp s (Zpos p * 10 ^ e)) 0 false
      else div (S754_finite s p 0) (S754_finite false (Z.to_pos (10 ^ (- e))) 0)
  | _ => S754_zero s
  end.

(** [int(f)]: truncation toward zero. *)
Definition trunc (f : float) : result Z :=
  match f with
  | S754_zero _ => Ok 0
  | S754_finite s m e => Ok (cond_Zopp s (Z.shiftl (Zpos m) e))
  | S754_infinity _ => Raise OverflowError
  | S754_nan => Raise (ValueError "cannot convert float NaN to integer")
  end.

End Float.

(** ** Python values *)

(** The values a cell of the table, a default of the mapping or a coerced
    field can be.  [PyNaT] is pandas' missing timestamp; [PyObj shown] stands
    for any other object (a pandas [Timestamp], a [datetime.time]), known by
    the text [str] gives for it: [int] and [float] reject it.  An integer
    cell or default is an integer as the loaders deliver it (a 64-bit integer
    of the table, an integer read from the mapping), which [str] always
    prints: it is far below the 4300 digits at which the conversions between
    integers and text stop. *)
Inductive pyval : Type :=
| PyNone
| PyNaT
| PyBool (b : bool)
| PyInt (n : Z)
| PyFloat (f : Float.float)
| PyStr (s : string)
| PyObj (shown : string).

(** ** Text: [str.split], [int(str)] and [float(str)]

    A text is a [string] whose characters are the code points 0 to 255. *)

Module Text.

(** [s.split(sep)] for a one-character separator: never an empty list. *)
Fixpoint split (sep : ascii) (s : string) : list string :=
  match s with
  | EmptyString => [EmptyString]
  | String c s' =>
      if Ascii.eqb c sep then EmptyString :: split sep s'
      else match split sep s' with
           | p :: ps => String c p :: ps
           | [] => [String c EmptyString]
           end
  end.

(** White space as [int] and [float] strip it: the characters 9 to 13 and
    32, and, above 127, the two spaces U+0085 and U+00A0.  The separators 28
    to 31 are not stripped. *)
Definition is_space (c : ascii) : bool :=
  let n := nat_of_ascii c in
  ((9 <=? n)%nat && (n <=? 13)%nat) || (n =? 32)%nat
  || (n =? 133)%nat || (n =? 160)%nat.

Fixpoint lstrip (l : list ascii) : list ascii :=
  match l with
  | c :: l' => if is_space c then lstrip l' else l
  | [] => []
  end.

Definition strip (l : list ascii) : list ascii :=
  rev (lstrip (rev (lstrip l))).

Definition digit_of (c : ascii) : option Z :=
  let n := nat_of_ascii c in
  if ((48 <=? n)%nat && (n <=? 57)%nat) then Some (Z.of_nat n - 48) else None.

(** Scans a run of digits in which single underscores may separate digits
    ([digit (["_"] digit)*]), up to the first other character.  Returns the
    value read so far, the number of digits and the rest; [None] when an
    underscore is not between two digits. *)
Fixpoint scan_digits (acc cnt : Z) (after_digit : bool) (l : list ascii)
  : option (Z * Z * list ascii) :=
  match l with
  | [] => if after_digit || (cnt =? 0) then Some (acc, cnt, []) else None
  | c :: l' =>
      match digit_of c with
      | Some d => scan_digits (acc * 10 + d) (cnt + 1) true l'
      | None =>
          if Ascii.eqb c "_"
          then if after_digit then scan_digits acc cnt false l' else None
          else if after_digit || (cnt =? 0) then Some (acc, cnt, l) else None
      end
  end.

(** An optional sign: [true] for "-". *)
Definition scan_sign (l : list ascii) : bool * list ascii :=
  match l with
  | c :: l' =>
      if Ascii.eqb c "-" then (true, l')
      else if Ascii.eqb c "+" then (false, l')
      else (false, l)
  | [] => (false, l)
  end.

Definition invalid_int : exn := ValueError "invalid literal for int() with base 10".
Definition invalid_float : exn := ValueError "could not convert string to float".

(** The most digits [int] converts from a text
    ([sys.int_info.default_max_str_digits]); leading zeros count, underscores
    do not. *)
Definition int_max_str_digits : Z := 4300.

Definition int_too_long : exn :=
  ValueError "Exceeds the limit (4300 digits) for integer string conversion".

(** [int(s)]: optional white space, an optional sign, decimal digits.  A run
    of more than [int_max_str_digits] digits is refused as soon as it has
    been scanned, before what follows it is looked at. *)
Definition int_of_string (s : string) : result Z :=
  let '(neg, l) := scan_sign (strip (list_ascii_of_string s)) in
  match scan_digits 0 0 false l with
  | Some (n, cnt, rest) =>
      if int_max_str_digits <? cnt then Raise int_too_long
      else match rest with
           | [] => if 0 <? cnt then Ok (cond_Zopp neg n) else Raise invalid_int
           | _ :: _ => Raise invalid_int
           end
  | None => Raise invalid_int
  end.

Definition lower (c : ascii) : ascii :=
  let n := nat_of_ascii c in
  if ((65 <=? n)%nat && (n <=? 90)%nat) then ascii_of_nat (n + 32) else c.

(** The exponent of a float literal: nothing, or [e], a sign and digits. *)
Definition scan_exponent (l : list ascii) : option Z :=
  match l with
  | [] => Some 0
  | c :: l' =>
      if Ascii.eqb (lower c) "e" then
        let '(neg, l'') := scan_sign l' in
        match scan_digits 0 0 false l'' with
        | Some (n, cnt, []) => if 0 <? cnt then Some (cond_Zopp neg n) else None
        | _ => None
        end
      else None
  end.

(** [float(s)]: optional white space, an optional sign, then [inf],
    [infinity], [nan] (in any case) or a decimal literal
    [digits[.digits][e[sign]digits]] with at least one digit before the
    exponent. *)
Definition float_of_string (s : string) : result Float.float :=
  let '(neg, l) := scan_sign (strip (list_ascii_of_string s)) in
  let word := string_of_list_ascii (map lower l) in
  if String.eqb word "inf" || String.eqb word "infinity" then Ok (S754_infinity neg)
  else if String.eqb word "nan" then Ok S754_nan
  else
    match scan_digits 0 0 false l with
    | Some (ip, icnt, rest) =>
        let after_point :=
          match rest with
          | c :: rest' =>
              if Ascii.eqb c "." then
                match scan_digits ip 0 false rest' with
                | Some (m, fcnt, rest'') => Some (m, fcnt, rest'')
                | None => None
                end
              else Some (ip, 0, rest)
          | [] => Some (ip, 0, rest)
          end in
        match after_point with
        | Some (m, fcnt, rest') =>
            if 0 <? icnt + fcnt then
              match scan_exponent rest' with
              | Some e => Ok (Float.of_decimal neg m (e - fcnt))
              | None => Raise invalid_float
              end
            else Raise invalid_float
        | None => Raise invalid_float
        end
    | None => Raise invalid_float
    end.

(** [str(n)] for a Python [int]. *)
Definition string_of_int (n : Z) : string :=
  NilZero.string_of_int (Z.to_int n).

End Text.

(** ** What the engine borrows from libraries *)

(** [dateutil.parser], [pytz] and the [repr] of floats, as an interface.  An
    instance stands for the libraries as they answer during one run, on the
    day and in the local zone of that run: [parser.parse] fills the fields a
    text leaves out from the current date and reads zone names against the
    local zone, and both are taken constant while the run lasts, like
    [utcoffset] below.
    - [float_repr f] is [str(f)] for a float;
    - [dateutil_parse s] is [parser.parse(s, dayfirst=True)];
    - [pytz_timezone name] is [pytz.timezone(name)];
    - [tzinfo_is_none dt] is [dt.tzinfo is None];
    - [tz_localize tz dt] is [tz.localize(dt)];
    - [utc_timestamp dt] is [dt.astimezone(pytz.UTC).timestamp()]. *)
Class PyLib : Type := {
  datetime : Type;
  tzinfo : Type;
  float_repr : Float.float -> string;
  dateutil_parse : string -> result datetime;
  pytz_timezone : string -> result tzinfo;
  tzinfo_is_none : datetime -> bool;
  tz_localize : tzinfo -> datetime -> datetime;
  utc_timestamp : datetime -> Float.float
}.

(** ** The mapping *)

(** One entry of [m['fields']]: [cfg['type']], [cfg['tag']] and the
    optional keys read with [cfg.get]. *)
Record field_cfg : Type := {
  type : string;
  tag : string;
  default : option pyval;
  timezone : option string;
  turbine_id : option string
}.

Record mapping : Type := {
  stream : string;
  version : pyval;
  fields : list (string * field_cfg)
}.

(** ** Built-ins on values *)

Section Builtins.

Context {L : PyLib}.

(** [pd.isna(raw)] on a scalar. *)
Definition isna (raw : pyval) : bool :=
  match raw with
  | PyNone | PyNaT => true
  | PyFloat f => Float.is_nan f
  | _ => false
  end.

(** [str(raw)]. *)
Definition py_str (raw : pyval) : string :=
  match raw with
  | PyNone => "None"
  | PyNaT => "NaT"
  | PyBool true => "True"
  | PyBool false => "False"
  | PyInt n => Text.string_of_int n
  | PyFloat f => float_repr f
  | PyStr s => s
  | PyObj shown => shown
  end.

(** [int(raw)]. *)
Definition py_int (raw : pyval) : result Z :=
  match raw with
  | PyBool b => Ok (if b then 1 else 0)
  | PyInt n => Ok n
  | PyFloat f => Float.trunc f
  | PyStr s => Text.int_of_string s
  | PyNone | PyNaT | PyObj _ => Raise TypeError
  end.

(** [float(raw)]. *)
Definition py_float (raw : pyval) : result Float.float :=
  match raw with
  | PyBool b => Ok (Float.of_dyadic (if b then 1 else 0) 0)
  | PyInt n => Float.of_int n
  | PyFloat f => Ok f
  | PyStr s => Text.float_of_string s
  | PyNone | PyNaT | PyObj _ => Raise TypeError
  end.

(** [parts[i]]. *)
Definition item (parts : list string) (i : nat) : result string :=
  match nth_error parts i with
  | Some p => Ok p
  | None => Raise IndexError
  end.

(** [cfg.get('default')]. *)
Definition get_default (cfg : field_cfg) : pyval :=
  match default cfg with
  | Some v => v
  | None => PyNone
  end.

(** [cfg.get('timezone', 'UTC')]. *)
Definition get_timezone (cfg : field_cfg) : string :=
  match timezone cfg with
  | Some z => z
  | None => "UTC"
  end.

Definition unsupported_type : exn := ValueError "Unsupported type in mapping".

(** ** [parse_value] *)

Definition parse_datetime (raw : pyval) (cfg : field_cfg) : result pyval :=
  dt <- dateutil_parse (py_str raw) ;;
  tz <- pytz_timezone (get_timezone cfg) ;;
  let dt := if tzinfo_is_none dt then tz_localize tz dt else dt in
  n <- Float.trunc (Float.mul (utc_timestamp dt) (Float.of_dyadic 1000 0)) ;;
  Ok (PyInt n).

Definition parse_duration (raw : pyval) : result pyval :=
  let parts := Text.split ":" (py_str raw) in
  hours <- (p <- item parts 0 ;; Text.int_of_string p) ;;
  minutes <- (p <- item parts 1 ;; Text.int_of_string p) ;;
  seconds <- (p <- item parts 2 ;; Text.float_of_string p) ;;
  whole <- Float.of_int (hours * 3600 + minutes * 60) ;;
  Ok (PyFloat (Float.add whole seconds)).

Definition parse_value (raw : pyval) (cfg : field_cfg) : result pyval :=
  if isna raw then Ok (get_default cfg)
  else
    let t := type cfg in
    if String.eqb t "string" then Ok (PyStr (py_str raw))
    else if String.eqb t "int" then (n <- py_int raw ;; Ok (PyInt n))
    else if String.eqb t "float" then (f <- py_float raw ;; Ok (PyFloat f))
    else if String.eqb t "datetime" then parse_datetime raw cfg
    else if String.eqb t "duration" then parse_duration raw
    else Raise unsupported_type.

End Builtins.

(** ** Ordered dictionaries *)

(** A [dict] in insertion order.  Assigning to a key that is present keeps
    its position; a new key goes to the end. *)
Section Dict.

Context {K V : Type} (eqb : K -> K -> bool).

Fixpoint dict_get (k : K) (d : list (K * V)) : option V :=
  match d with
  | [] => None
  | (k', v) :: d' => if eqb k k' then Some v else dict_get k d'
  end.

Definition dict_mem (k : K) (d : list (K * V)) : bool :=
  match dict_get k d with Some _ => true | None => false end.

Fixpoint dict_set (k : K) (v : V) (d : list (K * V)) : list (K * V) :=
  match d with
  | [] => [(k, v)]
  | (k', v') :: d' =>
      if eqb k k' then (k', v) :: d' else (k', v') :: dict_set k v d'
  end.

Definition dict_keys (d : list (K * V)) : list K := map fst d.

End Dict.

Definition payload : Type := list (string * pyval).

(** A row of the table; [row.get(col)] is [None] for a column the table does
    not have. *)
Definition row : Type := list (string * pyval).

Definition row_get (col : string) (r : row) : pyval :=
  match dict_get String.eqb col r with
  | Some v => v
  | None => PyNone
  end.

(** Group keys: the value of [cfg.get('turbine_id')]. *)
Definition tid_eqb (a b : option string) : bool :=
  match a, b with
  | None, None => true
  | Some x, Some y => String.eqb x y
  | _, _ => false
  end.

Definition tid_value (tid : option string) : pyval :=
  match tid with
  | Some t => PyStr t
  | None => PyNone
  end.

Definition buckets : Type := list (option string * payload).

(** ** The world of [make_header] *)

(** What [uuid.uuid4()] and [datetime.utcnow()] return at each call of
    [make_header], and the offset of the local time zone of the process.
    - [uuid4 w k] is the text of the identifier drawn by call number [k];
    - [utcnow_us w k] is the UTC wall clock read by call number [k], in
      microseconds since 1970-01-01T00:00:00 UTC;
    - [utcoffset w] is the local zone's offset from UTC in seconds, taken
      constant during the run (local time = UTC + offset). *)
Record world : Type := {
  calls : nat;
  uuid4 : nat -> string;
  utcnow_us : nat -> Z;
  utcoffset : Z
}.

Definition next (w : world) : world :=
  {| calls := S (calls w); uuid4 := uuid4 w; utcnow_us := utcnow_us w;
     utcoffset := utcoffset w |}.

(** Computations that read the world and may raise. *)
Definition M (A : Type) : Type := world -> result (A * world).

Definition mret {A : Type} (a : A) : M A := fun w => Ok (a, w).

Definition mbind {A B : Type} (c : M A) (k : A -> M B) : M B :=
  fun w => match c w with
           | Ok (a, w') => k a w'
           | Raise e => Raise e
           end.

Definition mraise {A : Type} (e : exn) : M A := fun _ => Raise e.

Definition lift {A : Type} (r : result A) : M A :=
  fun w => match r with Ok a => Ok (a, w) | Raise e => Raise e end.

Notation "x <~ c ;; k" := (mbind c (fun x => k))
  (at level 61, c at next level, right associativity) : py_scope.

(** ** [make_header] *)

Record header : Type := {
  hdr_stream : string;
  hdr_function : string;
  message_id : string;
  protocol_version : pyval;
  sent_time : Z
}.

Record message : Type := {
  msg_header : header;
  msg_payload : payload
}.

(** [datetime.utcnow().timestamp()]: [utcnow()] is a naive datetime showing
    the UTC wall clock, and [timestamp()] of a naive datetime reads it as
    local time: the seconds are converted with the local offset, then the
    microseconds are added as a float. *)
Definition naive_timestamp (offset : Z) (naive_us : Z) : Float.float :=
  let seconds := naive_us / 1000000 - offset in
  let micro := naive_us mod 1000000 in
  Float.add (Float.of_dyadic seconds 0)
            (Float.div (Float.of_dyadic micro 0) (Float.of_dyadic 1000000 0)).

(** [int(datetime.utcnow().timestamp() * 1000)].  A datetime lies between
    the years 1 and 9999, so the product is a finite float and [int] cannot
    raise here; the two cases that cannot occur are given 0. *)
Definition utcnow_ms (w : world) : Z :=
  match Float.trunc (Float.mul
                       (naive_timestamp (utcoffset w) (utcnow_us w (calls w)))
                       (Float.of_dyadic 1000 0)) with
  | Ok t => t
  | Raise _ => 0
  end.

Definition make_header (stream : string) (version : pyval) : M header :=
  fun w =>
    match Text.split "." stream with
    | [s; f] =>
        Ok ({| hdr_stream := s; hdr_function := f;
               message_id := uuid4 w (calls w);
               protocol_version := version;
               sent_time := utcnow_ms w |}, next w)
    | [] | [_] => Raise (ValueError "not enough values to unpack")
    | _ => Raise (ValueError "too many values to unpack")
    end.

(** The value a computation returns, the final world left out. *)
Definition run {A : Type} (c : M A) (w : world) : result A :=
  match c w with
  | Ok (a, _) => Ok a
  | Raise e => Raise e
  end.

(** ** [transform] *)

Section Transform.

Context {L : PyLib}.

Definition unsupported_stream : exn := ValueError "Unsupported stream in mapping".

(** *** Telemetry (T1.F01): one field of the loop over [m['fields']] *)

(** The state of the inner loop is [(buckets, ts_epoch)]. *)
Definition grouped_field (r : row) (st : buckets * pyval)
           (entry : string * field_cfg) : result (buckets * pyval) :=
  let '(bk, ts_epoch) := st in
  let '(col, cfg) := entry in
  let raw := row_get col r in
  val <- parse_value raw cfg ;;
  let tg := tag cfg in
  let tid := turbine_id cfg in
  let ts_epoch := if String.eqb tg "timestamp" then val else ts_epoch in
  let bk :=
    if dict_mem tid_eqb tid bk then bk
    else dict_set tid_eqb tid
           [("turbine_id", tid_value tid); ("timestamp", ts_epoch)] bk in
  let bk :=
    match dict_get tid_eqb tid bk with
    | Some p => dict_set tid_eqb tid (dict_set String.eqb tg val p) bk
    | None => bk
    end in
  Ok (bk, ts_epoch).

Fixpoint grouped_fields (r : row) (fs : list (string * field_cfg))
         (st : buckets * pyval) : result (buckets * pyval) :=
  match fs with
  | [] => Ok st
  | entry :: fs' => st' <- grouped_field r st entry ;; grouped_fields r fs' st'
  end.

(** The loop over [buckets.items()]. *)
Fixpoint emit_buckets (stream : string) (version : pyval) (bk : buckets)
         (messages : list message) : M (list message) :=
  match bk with
  | [] => mret messages
  | (_, p) :: bk' =>
      h <~ make_header stream version ;;
      emit_buckets stream version bk'
        (messages ++ [{| msg_header := h; msg_payload := p |}])%list
  end.

(** *** Alarm/Event (T1.F02): the loop over [m['fields']] *)
Fixpoint alarm_fields (r : row) (fs : list (string * field_cfg))
         (p : payload) : result payload :=
  match fs with
  | [] => Ok p
  | (col, cfg) :: fs' =>
      let raw := row_get col r in
      val <- parse_value raw cfg ;;
      alarm_fields r fs' (dict_set String.eqb (tag cfg) val p)
  end.

(** *** Theoretical power curve (T2.F01): the loop over [m['fields']] *)
Fixpoint curve_fields (r : row) (fs : list (string * field_cfg))
         (p : payload) : result payload :=
  match fs with
  | [] => Ok p
  | (col, cfg) :: fs' =>
      let raw := row_get col r in
      val <- parse_value raw cfg ;;
      curve_fields r fs' (dict_set String.eqb (tag cfg) val p)
  end.

(** The body of [for _, row in df.iterrows()]. *)
Definition transform_row (m : mapping) (r : row) (messages : list message)
  : M (list message) :=
  if String.eqb (stream m) "T1.F01" then
    st <~ lift (grouped_fields r (fields m) ([], PyNone)) ;;
    emit_buckets (stream m) (version m) (fst st) messages
  else if String.eqb (stream m) "T1.F02" then
    p <~ lift (alarm_fields r (fields m) []) ;;
    h <~ make_header (stream m) (version m) ;;
    mret (messages ++ [{| msg_header := h; msg_payload := p |}])%list
  else if String.eqb (stream m) "T2.F01" then
    p <~ lift (curve_fields r (fields m) []) ;;
    h <~ make_header (stream m) (version m) ;;
    mret (messages ++ [{| msg_header := h; msg_payload := p |}])%list
  else mraise unsupported_stream.

Fixpoint transform_rows (m : mapping) (rows : list row)
         (messages : list message) : M (list message) :=
  match rows with
  | [] => mret messages
  | r :: rows' =>
      messages' <~ transform_row m r messages ;;
      transform_rows m rows' messages'
  end.

(** [transform], from the loaded mapping and the rows of the table to the
    list of messages. *)
Definition transform (m : mapping) (rows : list row) : M (list message) :=
  transform_rows m rows [].

End Transform.

(** ** A small library instance

    A stand-in for [PyLib], enough to run the engine on tables without
    dates: every date is rejected, and a float is shown as its integer part
    followed by [".0"], which is what [repr] gives for the integral floats
    below 1e16 (no other float is printed in the examples below). *)
Definition plain_float_repr (f : Float.float) : string :=
  match Float.trunc f with
  | Ok n => String.append (Text.string_of_int n) ".0"
  | Raise _ => "nan"
  end.

#[export] Instance plain_lib : PyLib := {
  datetime := unit;
  tzinfo := unit;
  float_repr := plain_float_repr;
  dateutil_parse := fun _ => Raise (LibraryError "ParserError");
  pytz_timezone := fun _ => Ok tt;
  tzinfo_is_none := fun _ => true;
  tz_localize := fun _ dt => dt;
  utc_timestamp := fun _ => S754_zero false
}.

(** ** Vocabulary of the statements *)

(** A field specification given by its type, tag and group key, without
    default or time zone. *)
Definition field (ty tg : string) (tid : option string) : field_cfg :=
  {| type := ty; tag := tg; default := None; timezone := None;
     turbine_id := tid |}.

(** A world whose clock shows [us] microseconds after the epoch at every
    call, in a zone [offset] seconds east of UTC; identifiers are numbered. *)
Definition fixed_world (us offset : Z) : world :=
  {| calls := 0;
     uuid4 := fun k => Text.string_of_int (Z.of_nat k);
     utcnow_us := fun _ => us;
     utcoffset := offset |}.

(** The number of occurrences of a character in a text. *)
Fixpoint count_char (c : ascii) (s : string) : nat :=
  match s with
  | EmptyString => 0%nat
  | String c' s' => if Ascii.eqb c' c then S (count_char c s') else count_char c s'
  end.

(** The stream kinds [transform] knows. *)
Definition supported_stream (s : string) : bool :=
  String.eqb s "T1.F01" || String.eqb s "T1.F02" || String.eqb s "T2.F01".

(** Every field of the mapping coerces on the row. *)
Definition row_coerces `{L : PyLib} (fs : list (string * field_cfg)) (r : row) : Prop :=
  Forall (fun e => is_ok (parse_value (row_get (fst e) r) (snd e)) = true) fs.

(** Two messages that agree on everything but the stream and function of
    their headers, which are T1/F02 in the first and T2/F01 in the second. *)
Definition alarm_curve_twins (a b : message) : Prop :=
  msg_payload a = msg_payload b /\
  message_id (msg_header a) = message_id (msg_header b) /\
  protocol_version (msg_header a) = protocol_version (msg_header b) /\
  sent_time (msg_header a) = sent_time (msg_header b) /\
  hdr_stream (msg_header a) = "T1" /\ hdr_function (msg_header a) = "F02" /\
  hdr_stream (msg_header b) = "T2" /\ hdr_function (msg_header b) = "F01".

(** The end-to-end example of the specification: an alarm mapping and a
    table of two rows, the first with a blank description. *)
Definition alarm_mapping : mapping :=
  {| stream := "T1.F02"; version := PyStr "1.0";
     fields := [("Code", field "int" "alarm_code" None);
                ("Desc", {| type := "string"; tag := "description";
                            default := Some (PyStr ""); timezone := None;
                            turbine_id := None |})] |}.

Definition alarm_rows : list row :=
  [ [("Code", PyInt 42); ("Desc", PyFloat S754_nan)];
    [("Code", PyInt 7); ("Desc", PyStr "grid loss")] ].

(** The group key of an entry of [m['fields']], and its tag. *)
Definition entry_tid (e : string * field_cfg) : option string := turbine_id (snd e).
Definition entry_tag (e : string * field_cfg) : string := tag (snd e).

(** The keys of the payload [p] are exactly ["turbine_id"], ["timestamp"] and
    the tags of the fields of [fs] that carry the group key [g]. *)
Definition own_keys (fs : list (string * field_cfg)) (g : option string)
           (p : payload) : Prop :=
  forall k, In k (dict_keys p) <->
            k = "turbine_id" \/ k = "timestamp" \/
            exists e, In e fs /\ entry_tid e = g /\ entry_tag e = k.

(** Every bucket has [v] under ["timestamp"]. *)
Definition all_timestamps (v : pyval) (bk : buckets) : Prop :=
  forall g p, dict_get tid_eqb g bk = Some p ->
              dict_get String.eqb "timestamp" p = Some v.

(** The value of [ts_epoch] after the fields [fs], starting from [te]: the
    value coerced for the last field tagged ["timestamp"]. *)
Fixpoint timestamp_so_far `{L : PyLib} (r : row) (fs : list (string * field_cfg))
         (te : pyval) : pyval :=
  match fs with
  | [] => te
  | (col, cfg) :: fs' =>
      timestamp_so_far r fs'
        (if String.eqb (tag cfg) "timestamp"
         then match parse_value (row_get col r) cfg with
              | Ok v => v
              | Raise _ => te
              end
         else te)
  end.

(** The buckets describe the fields [done]: their keys are the group keys
    of [done], and each payload has the keys of its own group. *)
Definition buckets_of (done : list (string * field_cfg)) (bk : buckets) : Prop :=
  (forall g, In g (dict_keys bk) <-> exists e, In e done /\ entry_tid e = g) /\
  (forall g p, dict_get tid_eqb g bk = Some p -> own_keys done g p).

(** Telemetry mappings over one table: a time column and one power column
    for each of the turbines A and B.  In [telemetry_shared] the time column
    has no group key and comes first; in [telemetry_keyed] it comes first and
    carries the key of turbine A; in [telemetry_late] it carries the key of
    turbine A and comes last; in [telemetry_late_shared] it has no group key
    and comes last. *)
Definition time_field (tid : option string) : string * field_cfg :=
  ("Time", field "string" "timestamp" tid).

Definition power_fields : list (string * field_cfg) :=
  [("PA", field "int" "power" (Some "A")); ("PB", field "int" "power" (Some "B"))].

Definition telemetry (fs : list (string * field_cfg)) : mapping :=
  {| stream := "T1.F01"; version := PyStr "1.0"; fields := fs |}.

Definition telemetry_shared : mapping := telemetry (time_field None :: power_fields).
Definition telemetry_keyed : mapping := telemetry (time_field (Some "A") :: power_fields).
Definition telemetry_late : mapping := telemetry (power_fields ++ [time_field (Some "A")]).
Definition telemetry_late_shared : mapping := telemetry (power_fields ++ [time_field None]).

Definition telemetry_row : row :=
  [("Time", PyStr "2024-04-03 10:00:00"); ("PA", PyInt 10); ("PB", PyInt 20)].

(** The value of a decimal numeral read from the left, starting from
    [acc]. *)
Fixpoint uint_value (acc : Z) (d : Decimal.uint) : Z :=
  match d with
  | Decimal.Nil => acc
  | Decimal.D0 d => uint_value (acc * 10 + 0) d
  | Decimal.D1 d => uint_value (acc * 10 + 1) d
  | Decimal.D2 d => uint_value (acc * 10 + 2) d
  | Decimal.D3 d => uint_value (acc * 10 + 3) d
  | Decimal.D4 d => uint_value (acc * 10 + 4) d
  | Decimal.D5 d => uint_value (acc * 10 + 5) d
  | Decimal.D6 d => uint_value (acc * 10 + 6) d
  | Decimal.D7 d => uint_value (acc * 10 + 7) d
  | Decimal.D8 d => uint_value (acc * 10 + 8) d
  | Decimal.D9 d => uint_value (acc * 10 + 9) d
  end.

(** The characters of a decimal numeral. *)
Definition chars (d : Decimal.uint) : list ascii :=
  list_ascii_of_string (NilEmpty.string_of_uint d).

(** ** A library instance with dates

    A second stand-in for [PyLib], for the examples on dates: a date is
    written as a number of seconds, either after the letter [Z], and it is
    then an instant counted from the epoch in UTC, or alone, and it is then a
    wall-clock reading without zone; the known zones are UTC and
    Europe/Athens, the latter two hours east of UTC. *)
Definition epoch_parse (s : string) : result (Z * bool) :=
  match s with
  | String "Z" rest => n <- Text.int_of_string rest ;; Ok (n, true)
  | _ => n <- Text.int_of_string s ;; Ok (n, false)
  end.

Definition epoch_zone (name : string) : result Z :=
  if String.eqb name "UTC" then Ok 0
  else if String.eqb name "Europe/Athens" then Ok 7200
  else Raise (LibraryError "UnknownTimeZoneError").

Definition epoch_lib : PyLib := {|
  datetime := Z * bool;
  tzinfo := Z;
  float_repr := plain_float_repr;
  dateutil_parse := epoch_parse;
  pytz_timezone := epoch_zone;
  tzinfo_is_none := fun dt => negb (snd dt);
  tz_localize := fun tz dt => (fst dt - tz, true);
  utc_timestamp := fun dt => Float.of_dyadic (fst dt) 0
|}.

(** ** Vocabulary for the whole run *)

(** The payloads one row gives, in the order of their messages, or the
    exception the row raises. *)
Definition row_payloads `{L : PyLib} (m : mapping) (r : row) : result (list payload) :=
  if String.eqb (stream m) "T1.F01" then
    st <- grouped_fields r (fields m) ([], PyNone) ;; Ok (map snd (fst st))
  else if String.eqb (stream m) "T1.F02" then
    p <- alarm_fields r (fields m) [] ;; Ok [p]
  else if String.eqb (stream m) "T2.F01" then
    p <- curve_fields r (fields m) [] ;; Ok [p]
  else Raise unsupported_stream.

(** The payloads of a table, row after row, up to the first row that
    raises. *)
Fixpoint table_payloads `{L : PyLib} (m : mapping) (rows : list row)
  : result (list payload) :=
  match rows with
  | [] => Ok []
  | r :: rows' =>
      ps <- row_payloads m r ;;
      pss <- table_payloads m rows' ;;
      Ok (ps ++ pss)%list
  end.

(** One header per payload, drawn in order. *)
Fixpoint stamp_payloads (stream : string) (version : pyval) (ps : list payload)
  : M (list message) :=
  match ps with
  | [] => mret []
  | p :: ps' =>
      h <~ make_header stream version ;;
      rest <~ stamp_payloads stream version ps' ;;
      mret ({| msg_header := h; msg_payload := p |} :: rest)
  end.

(** The world as it is when call number [k] of [make_header] is made. *)
Definition at_call (w : world) (k : nat) : world :=
  {| calls := k; uuid4 := uuid4 w; utcnow_us := utcnow_us w;
     utcoffset := utcoffset w |}.

(** Keys in the order in which they are first met, after the keys [seen]. *)
Fixpoint first_seen {K : Type} (eqb : K -> K -> bool) (seen l : list K) : list K :=
  match l with
  | [] => seen
  | k :: l' =>
      first_seen eqb (if existsb (eqb k) seen then seen else (seen ++ [k])%list) l'
  end.

(** The fields of the mapping that carry the group key [g]. *)
Definition group_fields (g : option string) (fs : list (string * field_cfg))
  : list (string * field_cfg) :=
  filter (fun e => tid_eqb (entry_tid e) g) fs.

(** The value under the key [k] after the fields [fs], starting from [cur]:
    the value coerced for the last field tagged [k]. *)
Fixpoint last_tagged `{L : PyLib} (r : row) (fs : list (string * field_cfg))
         (k : string) (cur : option pyval) : option pyval :=
  match fs with
  | [] => cur
  | (col, cfg) :: fs' =>
      last_tagged r fs' k
        (if String.eqb k (tag cfg)
         then match parse_value (row_get col r) cfg with
              | Ok v => Some v
              | Raise _ => cur
              end
         else cur)
  end.

(** * Properties *)

(** ** Blank cells *)

(** C4. For every field specification and every blank cell (the values
    [pd.isna] accepts: [None], [NaT] and a NaN float), [parse_value] returns
    [cfg.get('default')] as it is, whatever the declared type: the default
    when there is one, [None] otherwise.  No conversion is applied. *)
Theorem parse_value_blank_is_default `{L : PyLib} (raw : pyval) (cfg : field_cfg) :
  isna raw = true ->
  parse_value raw cfg =
    Ok (match default cfg with Some v => v | None => PyNone end).
Proof.
  intros Hblank. unfold parse_value. rewrite Hblank. reflexivity.
Qed.

(** On an [int] field whose default is the text ["N/A"], a NaN cell gives the
    text ["N/A"]. *)
Lemma parse_value_blank_is_default_witness :
  isna (PyFloat S754_nan) = true /\
  parse_value (PyFloat S754_nan)
    {| type := "int"; tag := "alarm_code"; default := Some (PyStr "N/A");
       timezone := None; turbine_id := None |}
  = Ok (PyStr "N/A").
Proof.
  split; [reflexivity|].
  apply (parse_value_blank_is_default (PyFloat S754_nan)
           {| type := "int"; tag := "alarm_code"; default := Some (PyStr "N/A");
              timezone := None; turbine_id := None |}).
  reflexivity.
Defined.

(** ** Headers *)

Lemma split_length (c : ascii) (s : string) :
  List.length (Text.split c s) = S (count_char c s).
Proof.
  induction s as [|c' s IH]; simpl; [reflexivity|].
  destruct (Ascii.eqb c' c); simpl.
  - now rewrite IH.
  - destruct (Text.split c s) as [|p ps] eqn:E; simpl in *; [discriminate|].
    exact IH.
Qed.

Lemma split_no_sep (c : ascii) (s : string) :
  Forall (fun p => count_char c p = 0%nat) (Text.split c s).
Proof.
  induction s as [|c' s IH]; simpl.
  - constructor; [reflexivity | constructor].
  - destruct (Ascii.eqb c' c) eqn:Ec.
    + constructor; [reflexivity | exact IH].
    + destruct (Text.split c s) as [|p ps]; simpl.
      * constructor; [simpl; now rewrite Ec | constructor].
      * inversion IH; subst. constructor; [simpl; now rewrite Ec | assumption].
Qed.

Lemma split_nonempty (c : ascii) (s : string) : Text.split c s <> [].
Proof.
  intros H. assert (Hlen := split_length c s). now rewrite H in Hlen.
Qed.

Lemma split_one (c : ascii) (s b : string) :
  Text.split c s = [b] -> s = b.
Proof.
  revert b. induction s as [|c' s IH]; simpl; intros b H.
  - now injection H.
  - destruct (Ascii.eqb c' c).
    + injection H as _ H. now apply split_nonempty in H.
    + destruct (Text.split c s) as [|p ps] eqn:E.
      * now apply split_nonempty in E.
      * injection H as <- ->. f_equal. now apply IH.
Qed.

Lemma split_two_join (c : ascii) (s a b : string) :
  Text.split c s = [a; b] -> s = (a ++ String c b)%string.
Proof.
  revert a. induction s as [|c' s IH]; simpl; intros a H; [discriminate|].
  destruct (Ascii.eqb_spec c' c) as [->|Hne].
  - injection H as <- H. apply split_one in H. now subst.
  - destruct (Text.split c s) as [|p ps] eqn:E; [discriminate|].
    injection H as <- ->. simpl. f_equal. now apply IH.
Qed.

(** C8 (counterexample). The text ["A."] has an empty second component, and
    [make_header] accepts it: the header has stream ["A"] and an empty
    function. *)
Lemma make_header_accepts_empty_component :
  run (make_header "A." (PyStr "1.0")) (fixed_world 0 0) =
    Ok {| hdr_stream := "A"; hdr_function := "";
          message_id := "0"; protocol_version := PyStr "1.0"; sent_time := 0 |}.
Proof. vm_compute. reflexivity. Qed.

(** C8 (amended). For every text [stream], [make_header] splits it at its
    [.]: when the text has exactly one [.] it is [s ++ "." ++ f] for two
    components without [.], either of which may be empty, and the header
    carries [s] as stream and [f] as function; when it has no [.] or more
    than one, [make_header] raises [ValueError]. *)
Theorem make_header_splits_on_single_dot (stream : string) (version : pyval) (w : world) :
  if Nat.eqb (count_char "." stream) 1 then
    exists s f : string,
      stream = (s ++ "." ++ f)%string /\
      count_char "." s = 0%nat /\ count_char "." f = 0%nat /\
      make_header stream version w =
        Ok ({| hdr_stream := s; hdr_function := f;
               message_id := uuid4 w (calls w);
               protocol_version := version;
               sent_time := utcnow_ms w |}, next w)
  else
    exists reason : string,
      make_header stream version w = Raise (ValueError reason).
Proof.
  assert (Hlen := split_length "." stream).
  assert (Hsep := split_no_sep "." stream).
  unfold make_header.
  destruct (Nat.eqb_spec (count_char "." stream) 1) as [H1|H1].
  - rewrite H1 in Hlen.
    destruct (Text.split "." stream) as [|s [|f [|x xs]]] eqn:E; try discriminate.
    exists s, f. inversion Hsep as [|? ? Hs Hrest]; subst.
    inversion Hrest as [|? ? Hf _]; subst.
    repeat split; try assumption.
    now apply split_two_join.
  - destruct (Text.split "." stream) as [|s [|f [|x xs]]] eqn:E;
      simpl in Hlen; try (eexists; reflexivity).
    exfalso. apply H1. now injection Hlen.
Qed.

(** ** Stream kinds *)

(** C6 (counterexample). With no rows the loop body never runs: a mapping
    whose stream is not supported is not rejected, and [transform] returns
    the empty list. *)
Lemma unsupported_stream_no_rows_no_error :
  supported_stream "X9.F99" = false /\
  run (transform {| stream := "X9.F99"; version := PyStr "1.0"; fields := [] |} [])
      (fixed_world 0 0) = Ok [].
Proof. split; reflexivity. Qed.

(** C6 (amended). For every mapping whose stream is not one of the supported
    kinds: on a table with at least one row [transform] raises the
    "Unsupported stream" [ValueError] at the first row, whatever the fields
    and the cells are (nothing is coerced, no header is made, no message is
    returned); on a table without rows it returns the empty list. *)
Theorem unsupported_stream_raises_at_first_row `{L : PyLib}
        (m : mapping) (rows : list row) (w : world) :
  supported_stream (stream m) = false ->
  transform m rows w =
    match rows with
    | [] => Ok ([], w)
    | _ :: _ => Raise unsupported_stream
    end.
Proof.
  unfold supported_stream. intros H.
  apply orb_false_iff in H as [H H3]. apply orb_false_iff in H as [H1 H2].
  destruct rows as [|r rows]; [reflexivity|].
  unfold transform. simpl. unfold mbind, transform_row.
  now rewrite H1, H2, H3.
Qed.

Lemma unsupported_stream_raises_at_first_row_witness :
  supported_stream "X9.F99" = false /\
  transform {| stream := "X9.F99"; version := PyStr "1.0";
               fields := [("Code", field "int" "alarm_code" None)] |}
            [[("Code", PyStr "not a number")]] (fixed_world 0 0)
  = Raise unsupported_stream.
Proof.
  split; [reflexivity|].
  apply (unsupported_stream_raises_at_first_row
           {| stream := "X9.F99"; version := PyStr "1.0";
              fields := [("Code", field "int" "alarm_code" None)] |}
           [[("Code", PyStr "not a number")]] (fixed_world 0 0)).
  reflexivity.
Defined.

(** ** Flat streams *)

Lemma curve_fields_is_alarm_fields `{L : PyLib} (r : row)
      (fs : list (string * field_cfg)) (p : payload) :
  curve_fields r fs p = alarm_fields r fs p.
Proof.
  revert p. induction fs as [|[col cfg] fs IH]; intros p; simpl; [reflexivity|].
  destruct (parse_value (row_get col r) cfg); simpl; [apply IH | reflexivity].
Qed.

Lemma alarm_fields_total `{L : PyLib} (r : row) (fs : list (string * field_cfg))
      (p : payload) :
  row_coerces fs r -> exists q, alarm_fields r fs p = Ok q.
Proof.
  unfold row_coerces. revert p.
  induction fs as [|[col cfg] fs IH]; intros p H; simpl.
  - now exists p.
  - inversion H as [|? ? Hhd Htl]; subst. simpl in Hhd.
    destruct (parse_value (row_get col r) cfg); [|discriminate]. simpl.
    now apply IH.
Qed.

(** One row of a flat stream: the body of the loop appends one message, made
    of the payload of the row and a header drawn from the world. *)
Lemma transform_row_flat `{L : PyLib} (m : mapping) (r : row)
      (acc : list message) (w : world) (p : payload) :
  stream m = "T1.F02" \/ stream m = "T2.F01" ->
  alarm_fields r (fields m) [] = Ok p ->
  exists h,
    transform_row m r acc w = Ok ((acc ++ [{| msg_header := h; msg_payload := p |}])%list, next w)
    /\ message_id h = uuid4 w (calls w).
Proof.
  intros [Hs|Hs] Hp; unfold transform_row; rewrite Hs; simpl;
    unfold mbind, lift; rewrite ?curve_fields_is_alarm_fields, Hp; simpl;
    eexists; split; reflexivity.
Qed.

Lemma transform_rows_flat `{L : PyLib} (m : mapping) (rows : list row) :
  stream m = "T1.F02" \/ stream m = "T2.F01" ->
  Forall (row_coerces (fields m)) rows ->
  forall (acc : list message) (w : world),
  exists msgs w',
    transform_rows m rows acc w = Ok ((acc ++ msgs)%list, w') /\
    Forall2 (fun r msg => alarm_fields r (fields m) [] = Ok (msg_payload msg))
            rows msgs /\
    map (fun msg => message_id (msg_header msg)) msgs =
      map (uuid4 w) (seq (calls w) (List.length rows)).
Proof.
  intros Hs Hrows. induction Hrows as [|r rows Hr Hrows IH]; intros acc w.
  - exists [], w. simpl. rewrite app_nil_r. repeat split; constructor.
  - destruct (alarm_fields_total r (fields m) [] Hr) as [p Hp].
    destruct (transform_row_flat m r acc w p Hs Hp) as [h [Hrow Hid]].
    destruct (IH (acc ++ [{| msg_header := h; msg_payload := p |}])%list (next w))
      as [msgs [w' [Hrest [Hpay Hids]]]].
    exists ({| msg_header := h; msg_payload := p |} :: msgs), w'.
    simpl. unfold mbind. rewrite Hrow, Hrest, <- app_assoc. simpl.
    repeat split.
    + constructor; assumption.
    + simpl in Hids. now rewrite Hid, Hids.
Qed.

(** C3. For each of the two flat streams (T1.F02 and T2.F01) and every
    table on which every field of every row coerces, [transform] returns
    exactly one message per row, in the order of the rows: the payload of the
    i-th message is the payload built from the i-th row, and the messages
    were made one after the other (the i-th message carries the i-th
    identifier drawn from the world). *)
Theorem flat_stream_one_message_per_row `{L : PyLib}
        (m : mapping) (rows : list row) (w : world) :
  stream m = "T1.F02" \/ stream m = "T2.F01" ->
  Forall (row_coerces (fields m)) rows ->
  exists msgs,
    run (transform m rows) w = Ok msgs /\
    List.length msgs = List.length rows /\
    Forall2 (fun r msg => alarm_fields r (fields m) [] = Ok (msg_payload msg))
            rows msgs /\
    map (fun msg => message_id (msg_header msg)) msgs =
      map (uuid4 w) (seq (calls w) (List.length rows)).
Proof.
  intros Hs Hrows.
  destruct (transform_rows_flat m rows Hs Hrows [] w) as [msgs [w' [Hrun [Hpay Hids]]]].
  exists msgs. unfold run, transform. rewrite Hrun. simpl.
  repeat split; try assumption.
  symmetry. eapply Forall2_length; eassumption.
Qed.

Lemma flat_stream_one_message_per_row_witness :
  (stream alarm_mapping = "T1.F02" \/ stream alarm_mapping = "T2.F01") /\
  Forall (row_coerces (fields alarm_mapping)) alarm_rows /\
  exists msgs,
    run (transform alarm_mapping alarm_rows) (fixed_world 0 0) = Ok msgs /\
    List.length msgs = List.length alarm_rows /\
    Forall2 (fun r msg => alarm_fields r (fields alarm_mapping) [] = Ok (msg_payload msg))
            alarm_rows msgs /\
    map (fun msg => message_id (msg_header msg)) msgs =
      map (uuid4 (fixed_world 0 0))
          (seq (calls (fixed_world 0 0)) (List.length alarm_rows)).
Proof.
  assert (H1 : stream alarm_mapping = "T1.F02" \/ stream alarm_mapping = "T2.F01")
    by (left; reflexivity).
  assert (H2 : Forall (row_coerces (fields alarm_mapping)) alarm_rows)
    by (repeat constructor).
  split; [exact H1|]. split; [exact H2|].
  exact (flat_stream_one_message_per_row alarm_mapping alarm_rows (fixed_world 0 0) H1 H2).
Defined.

(** ** The two flat branches *)

Lemma transform_rows_alarm_curve `{L : PyLib} (v : pyval)
      (fs : list (string * field_cfg)) (rows : list row) :
  forall (acc1 acc2 : list message) (w : world),
    Forall2 alarm_curve_twins acc1 acc2 ->
    match transform_rows {| stream := "T1.F02"; version := v; fields := fs |} rows acc1 w,
          transform_rows {| stream := "T2.F01"; version := v; fields := fs |} rows acc2 w
    with
    | Ok (ms1, w1), Ok (ms2, w2) => w1 = w2 /\ Forall2 alarm_curve_twins ms1 ms2
    | Raise e1, Raise e2 => e1 = e2
    | _, _ => False
    end.
Proof.
  induction rows as [|r rows IH]; intros acc1 acc2 w Hacc; simpl.
  - now split.
  - unfold mbind, transform_row. simpl. unfold mbind, lift.
    change (curve_fields r fs []) with (alarm_fields r fs []).
    destruct (alarm_fields r fs []) as [p|e]; [|reflexivity].
    simpl. apply IH. apply Forall2_app; [assumption|].
    constructor; [|constructor]. repeat split.
Qed.

(** C10. For every list of field specifications, every version and every
    table, the branch of T1.F02 and the branch of T2.F01 compute the same
    payload from a row, and [transform] run on the same inputs in the same
    world either raises the same exception under both streams or returns two
    lists of messages that agree message by message on the payload, the
    identifier, the version and the send time, and differ only in the stream
    and function of the header (T1/F02 against T2/F01). *)
Theorem alarm_and_curve_branches_agree `{L : PyLib} (v : pyval)
        (fs : list (string * field_cfg)) (rows : list row) (w : world) :
  (forall r p, alarm_fields r fs p = curve_fields r fs p) /\
  match run (transform {| stream := "T1.F02"; version := v; fields := fs |} rows) w,
        run (transform {| stream := "T2.F01"; version := v; fields := fs |} rows) w
  with
  | Ok ms1, Ok ms2 => Forall2 alarm_curve_twins ms1 ms2
  | Raise e1, Raise e2 => e1 = e2
  | _, _ => False
  end.
Proof.
  split.
  - intros r p. symmetry. apply curve_fields_is_alarm_fields.
  - unfold run, transform.
    assert (H := transform_rows_alarm_curve v fs rows [] [] w (Forall2_nil _)).
    destruct (transform_rows {| stream := "T1.F02" |} rows [] w) as [[ms1 w1]|e1];
      destruct (transform_rows {| stream := "T2.F01" |} rows [] w) as [[ms2 w2]|e2];
      simpl; [apply H | exact H | exact H | exact H].
Qed.

(** ** Send time *)

Lemma naive_timestamp_shift (offset us : Z) :
  naive_timestamp offset us = naive_timestamp 0 (us - offset * 1000000).
Proof.
  unfold naive_timestamp. f_equal; [f_equal | do 2 f_equal].
  - replace (us - offset * 1000000) with (us + (- offset) * 1000000) by lia.
    rewrite Z.div_add by lia. lia.
  - replace (us - offset * 1000000) with (us + (- offset) * 1000000) by lia.
    now rewrite Z.mod_add by lia.
Qed.

(** C9 (the code at the failing input). In a process whose local zone is
    [utcoffset] seconds east of UTC, the send time is the one a process at
    UTC would compute [utcoffset] seconds earlier: the naive datetime of
    [utcnow()] is read back as local time.  At the instant 1700000000001 ms
    after the epoch, a process two hours east of UTC stamps its header with
    1699992800001, two hours less than the clock; the same instant in a
    process at UTC gives 1700000000001. *)
Theorem sent_time_is_shifted_by_local_offset :
  (forall w : world,
      utcnow_ms w =
        utcnow_ms {| calls := calls w; uuid4 := uuid4 w;
                     utcnow_us := fun k => utcnow_us w k - utcoffset w * 1000000;
                     utcoffset := 0 |}) /\
  run (make_header "T1.F02" (PyStr "1.0")) (fixed_world 1700000000001000 7200) =
    Ok {| hdr_stream := "T1"; hdr_function := "F02"; message_id := "0";
          protocol_version := PyStr "1.0"; sent_time := 1699992800001 |} /\
  1699992800001 = 1700000000001000 / 1000 - 7200 * 1000 /\
  utcnow_ms (fixed_world 1700000000001000 0) = 1700000000001000 / 1000.
Proof.
  split.
  - intros w. unfold utcnow_ms. simpl. now rewrite naive_timestamp_shift.
  - vm_compute. repeat split.
Qed.

(** ** Facts on ordered dictionaries *)

Section DictFacts.

Context {K V : Type} (eqb : K -> K -> bool).
Hypothesis eqb_eq : forall a b, eqb a b = true <-> a = b.

Lemma eqb_refl' (k : K) : eqb k k = true.
Proof. now apply eqb_eq. Qed.

Lemma eqb_neq (a b : K) : a <> b -> eqb a b = false.
Proof.
  intros H. destruct (eqb a b) eqn:E; [|reflexivity].
  now apply eqb_eq in E.
Qed.

Lemma dict_get_set_same (k : K) (v : V) (d : list (K * V)) :
  dict_get eqb k (dict_set eqb k v d) = Some v.
Proof.
  induction d as [|[k' v'] d IH]; simpl.
  - now rewrite eqb_refl'.
  - destruct (eqb k k') eqn:E; simpl; rewrite E; [reflexivity | exact IH].
Qed.

Lemma dict_get_set_other (k k' : K) (v : V) (d : list (K * V)) :
  k <> k' -> dict_get eqb k (dict_set eqb k' v d) = dict_get eqb k d.
Proof.
  intros Hne. induction d as [|[k0 v0] d IH]; simpl.
  - now rewrite (eqb_neq _ _ Hne).
  - destruct (eqb k' k0) eqn:E; simpl.
    + apply eqb_eq in E. subst k0. now rewrite (eqb_neq _ _ Hne).
    + now rewrite IH.
Qed.

Lemma dict_set_set (k : K) (v v0 : V) (d : list (K * V)) :
  dict_set eqb k v (dict_set eqb k v0 d) = dict_set eqb k v d.
Proof.
  induction d as [|[k' v'] d IH]; simpl.
  - now rewrite eqb_refl'.
  - destruct (eqb k k') eqn:E; simpl; rewrite E; [reflexivity | now rewrite IH].
Qed.

Lemma dict_mem_keys (k : K) (d : list (K * V)) :
  dict_mem eqb k d = true <-> In k (dict_keys d).
Proof.
  unfold dict_mem. induction d as [|[k' v'] d IH]; simpl.
  - split; [discriminate | tauto].
  - destruct (eqb k k') eqn:E.
    + apply eqb_eq in E. subst. split; auto.
    + rewrite IH. split; [auto | intros [->|H]; [|exact H]].
      now rewrite eqb_refl' in E.
Qed.

Lemma dict_keys_set (k : K) (v : V) (d : list (K * V)) :
  dict_keys (dict_set eqb k v d) =
    if dict_mem eqb k d then dict_keys d else (dict_keys d ++ [k])%list.
Proof.
  unfold dict_mem. induction d as [|[k' v'] d IH]; simpl; [reflexivity|].
  destruct (eqb k k') eqn:E; simpl; [reflexivity|].
  rewrite IH. now destruct (dict_get eqb k d).
Qed.

Lemma dict_keys_set_In (k k' : K) (v : V) (d : list (K * V)) :
  In k' (dict_keys (dict_set eqb k v d)) <-> k' = k \/ In k' (dict_keys d).
Proof.
  rewrite dict_keys_set. destruct (dict_mem eqb k d) eqn:E.
  - apply dict_mem_keys in E. split; [auto | intros [->|H]; assumption].
  - rewrite in_app_iff. simpl. intuition.
Qed.

End DictFacts.

Lemma tid_eqb_eq (a b : option string) : tid_eqb a b = true <-> a = b.
Proof.
  destruct a as [x|], b as [y|]; simpl; try (split; [discriminate | congruence]).
  - rewrite String.eqb_eq. split; congruence.
  - tauto.
Qed.

(** ** Telemetry: the field loop *)

Section Grouped.

Context {L : PyLib}.

(** What one field does to the buckets: the bucket of its group key, seeded
    with the group key and with the timestamp coerced so far when the key
    is new, receives the coerced value under the tag of the field. *)
Lemma grouped_field_step (r : row) (bk : buckets) (te : pyval)
      (col : string) (cfg : field_cfg) (val : pyval) :
  parse_value (row_get col r) cfg = Ok val ->
  let te' := if String.eqb (tag cfg) "timestamp" then val else te in
  let p0 := match dict_get tid_eqb (turbine_id cfg) bk with
            | Some p => p
            | None => [("turbine_id", tid_value (turbine_id cfg)); ("timestamp", te')]
            end in
  grouped_field r (bk, te) (col, cfg) =
    Ok (dict_set tid_eqb (turbine_id cfg)
          (dict_set String.eqb (tag cfg) val p0) bk, te').
Proof.
  intros Hval. unfold grouped_field. rewrite Hval. simpl. unfold dict_mem.
  destruct (dict_get tid_eqb (turbine_id cfg) bk) as [p|] eqn:E.
  - now rewrite E.
  - rewrite (dict_get_set_same tid_eqb tid_eqb_eq).
    now rewrite (dict_set_set tid_eqb tid_eqb_eq).
Qed.

Lemma grouped_fields_total (r : row) (fs : list (string * field_cfg))
      (st : buckets * pyval) :
  row_coerces fs r -> exists st', grouped_fields r fs st = Ok st'.
Proof.
  unfold row_coerces. revert st.
  induction fs as [|[col cfg] fs IH]; intros [bk te] H; cbn [grouped_fields].
  - eexists; reflexivity.
  - inversion H as [|? ? Hhd Htl]; subst. simpl in Hhd.
    destruct (parse_value (row_get col r) cfg) as [val|] eqn:E; [|discriminate].
    rewrite (grouped_field_step r bk te col cfg val E). simpl. now apply IH.
Qed.

Lemma grouped_fields_app (r : row) (fs1 fs2 : list (string * field_cfg))
      (st : buckets * pyval) :
  grouped_fields r (fs1 ++ fs2) st =
    (st' <- grouped_fields r fs1 st ;; grouped_fields r fs2 st').
Proof.
  revert st. induction fs1 as [|e fs1 IH]; intros st; cbn [grouped_fields app].
  - reflexivity.
  - destruct (grouped_field r st e) as [st'|]; simpl; [apply IH | reflexivity].
Qed.

(** Inversion of one turn of the loop. *)
Lemma grouped_fields_cons (r : row) (col : string) (cfg : field_cfg)
      (fs : list (string * field_cfg)) (bk bk' : buckets) (te te' : pyval) :
  grouped_fields r ((col, cfg) :: fs) (bk, te) = Ok (bk', te') ->
  exists val,
    parse_value (row_get col r) cfg = Ok val /\
    let te1 := if String.eqb (tag cfg) "timestamp" then val else te in
    let p0 := match dict_get tid_eqb (turbine_id cfg) bk with
              | Some p => p
              | None => [("turbine_id", tid_value (turbine_id cfg)); ("timestamp", te1)]
              end in
    grouped_fields r fs
      (dict_set tid_eqb (turbine_id cfg)
         (dict_set String.eqb (tag cfg) val p0) bk, te1) = Ok (bk', te').
Proof.
  cbn [grouped_fields]. intros H.
  destruct (parse_value (row_get col r) cfg) as [val|e] eqn:E.
  - exists val. split; [reflexivity|].
    now rewrite (grouped_field_step r bk te col cfg val E) in H.
  - unfold grouped_field in H. now rewrite E in H.
Qed.

Lemma timestamp_so_far_spec (r : row) (fs : list (string * field_cfg)) :
  forall bk te bk' te',
    grouped_fields r fs (bk, te) = Ok (bk', te') ->
    te' = timestamp_so_far r fs te.
Proof.
  induction fs as [|[col cfg] fs IH]; intros bk te bk' te' H.
  - simpl in H. now injection H.
  - apply grouped_fields_cons in H as [val [E H]]. cbv zeta in H.
    apply IH in H. cbn [timestamp_so_far]. now rewrite E.
Qed.

(** No field tagged ["timestamp"]: [ts_epoch] stays, and so does the
    timestamp of every bucket, old or new. *)
Lemma no_timestamp_field_keeps (r : row) (fs : list (string * field_cfg)) :
  Forall (fun e => entry_tag e <> "timestamp") fs ->
  forall bk te bk' te',
    all_timestamps te bk ->
    grouped_fields r fs (bk, te) = Ok (bk', te') ->
    te' = te /\ all_timestamps te bk'.
Proof.
  induction 1 as [|[col cfg] fs Htag Hfs IH]; intros bk te bk' te' Hall H.
  - simpl in H. injection H as <- <-. now split.
  - apply grouped_fields_cons in H as [val [E H]]. cbv zeta in H.
    unfold entry_tag in Htag. simpl in Htag.
    apply String.eqb_neq in Htag. rewrite Htag in H.
    apply IH in H; [exact H|]. clear IH H.
    intros g p Hg.
    destruct (tid_eqb g (turbine_id cfg)) eqn:Eg.
    + apply tid_eqb_eq in Eg. subst g.
      rewrite (dict_get_set_same tid_eqb tid_eqb_eq) in Hg. injection Hg as <-.
      rewrite (dict_get_set_other String.eqb String.eqb_eq)
        by (intros Heq; apply String.eqb_neq in Htag; congruence).
      destruct (dict_get tid_eqb (turbine_id cfg) bk) as [p|] eqn:Ep.
      * now apply (Hall _ _ Ep).
      * reflexivity.
    + rewrite (dict_get_set_other tid_eqb tid_eqb_eq) in Hg.
      * now apply (Hall _ _ Hg).
      * intros ->. now rewrite (proj2 (tid_eqb_eq _ _) eq_refl) in Eg.
Qed.

(** A bucket whose group has no later field tagged ["timestamp"] keeps
    what it has under ["timestamp"]. *)
Lemma group_timestamp_kept (r : row) (g : option string) (v : pyval)
      (fs : list (string * field_cfg)) :
  Forall (fun e => entry_tid e = g -> entry_tag e <> "timestamp") fs ->
  forall bk te bk' te',
    (exists p, dict_get tid_eqb g bk = Some p /\
               dict_get String.eqb "timestamp" p = Some v) ->
    grouped_fields r fs (bk, te) = Ok (bk', te') ->
    exists p, dict_get tid_eqb g bk' = Some p /\
              dict_get String.eqb "timestamp" p = Some v.
Proof.
  induction 1 as [|[col cfg] fs Htag Hfs IH]; intros bk te bk' te' Hg H.
  - simpl in H. now injection H as <- <-.
  - apply grouped_fields_cons in H as [val [E H]]. cbv zeta in H.
    apply IH in H; [exact H|]. clear IH H.
    destruct Hg as [p [Hp Hv]].
    unfold entry_tid, entry_tag in Htag. simpl in Htag.
    destruct (tid_eqb g (turbine_id cfg)) eqn:Eg.
    + apply tid_eqb_eq in Eg. subst g. unfold buckets, payload in *. rewrite Hp.
      rewrite (dict_get_set_same tid_eqb tid_eqb_eq).
      eexists. split; [reflexivity|].
      rewrite (dict_get_set_other String.eqb String.eqb_eq);
        [exact Hv | intros Heq; now apply (Htag eq_refl)].
    + rewrite (dict_get_set_other tid_eqb tid_eqb_eq).
      * now exists p.
      * intros ->. now rewrite (proj2 (tid_eqb_eq _ _) eq_refl) in Eg.
Qed.

Lemma NoDup_snoc {A : Type} (l : list A) (x : A) :
  NoDup l -> ~ In x l -> NoDup (l ++ [x]).
Proof.
  induction 1 as [|y l Hy Hl IH]; intros Hx; simpl.
  - constructor; [tauto | constructor].
  - constructor.
    + rewrite in_app_iff. simpl. intros [H|[H|[]]]; [tauto|].
      apply Hx. now left.
    + apply IH. intros H. apply Hx. now right.
Qed.

(** Group keys are only ever added at the end, and never twice. *)
Lemma grouped_fields_keys (r : row) (fs : list (string * field_cfg)) :
  forall bk te bk' te',
    NoDup (dict_keys bk) ->
    grouped_fields r fs (bk, te) = Ok (bk', te') ->
    NoDup (dict_keys bk') /\ exists l, dict_keys bk' = (dict_keys bk ++ l)%list.
Proof.
  induction fs as [|[col cfg] fs IH]; intros bk te bk' te' Hnd H.
  - simpl in H. injection H as <- <-. split; [assumption|].
    exists []. now rewrite app_nil_r.
  - apply grouped_fields_cons in H as [val [E H]]. cbv zeta in H.
    apply IH in H.
    + destruct H as [Hnd' [l Hl]]. split; [assumption|].
      rewrite Hl, (dict_keys_set tid_eqb).
      destruct (dict_mem tid_eqb (turbine_id cfg) bk).
      * now exists l.
      * exists (turbine_id cfg :: l). now rewrite <- app_assoc.
    + rewrite (dict_keys_set tid_eqb).
      destruct (dict_mem tid_eqb (turbine_id cfg) bk) eqn:Em; [assumption|].
      apply NoDup_snoc; [assumption|].
      intros Hin. apply (dict_mem_keys tid_eqb tid_eqb_eq) in Hin. congruence.
Qed.

Lemma buckets_of_step (done : list (string * field_cfg)) (bk : buckets)
      (col : string) (cfg : field_cfg) (val te1 : pyval) :
  buckets_of done bk ->
  buckets_of (done ++ [(col, cfg)])
    (dict_set tid_eqb (turbine_id cfg)
       (dict_set String.eqb (tag cfg) val
          match dict_get tid_eqb (turbine_id cfg) bk with
          | Some p => p
          | None => [("turbine_id", tid_value (turbine_id cfg)); ("timestamp", te1)]
          end) bk).
Proof.
  intros [Hkeys Hown]. split.
  - intros g. rewrite (dict_keys_set_In tid_eqb tid_eqb_eq), Hkeys. split.
    + intros [->|[e [He Hg]]].
      * exists (col, cfg). split; [apply in_or_app; right; now left | reflexivity].
      * exists e. split; [apply in_or_app; now left | assumption].
    + intros [e [He Hg]]. apply in_app_or in He as [He|[<-|[]]].
      * right. now exists e.
      * left. now symmetry.
  - intros g p Hg k.
    destruct (tid_eqb g (turbine_id cfg)) eqn:Eg.
    + apply tid_eqb_eq in Eg. subst g.
      rewrite (dict_get_set_same tid_eqb tid_eqb_eq) in Hg. injection Hg as <-.
      rewrite (dict_keys_set_In String.eqb String.eqb_eq).
      destruct (dict_get tid_eqb (turbine_id cfg) bk) as [p1|] eqn:Ep.
      * rewrite (Hown _ _ Ep k). split.
        -- intros [->|[H|[H|[e [He [Ht Hk]]]]]]; auto.
           ++ right; right. exists (col, cfg).
              split; [apply in_or_app; right; now left | now split].
           ++ right; right. exists e. split; [apply in_or_app; now left | now split].
        -- intros [H|[H|[e [He [Ht Hk]]]]]; auto.
           apply in_app_or in He as [He|[<-|[]]].
           ++ right; right; right. now exists e.
           ++ left. now symmetry.
      * assert (Hnone : forall e, In e done -> entry_tid e <> turbine_id cfg).
        { intros e He Ht.
          assert (Hin : In (turbine_id cfg) (dict_keys bk))
            by (apply Hkeys; now exists e).
          apply (dict_mem_keys tid_eqb tid_eqb_eq) in Hin.
          unfold dict_mem, buckets, payload in *. now rewrite Ep in Hin. }
        simpl. split.
        -- intros [->|[<-|[<-|[]]]]; auto.
           right; right. exists (col, cfg).
           split; [apply in_or_app; right; now left | now split].
        -- intros [H|[H|[e [He [Ht Hk]]]]]; auto.
           apply in_app_or in He as [He|[<-|[]]].
           ++ now apply Hnone in He.
           ++ left. now symmetry.
    + assert (Hne : g <> turbine_id cfg)
        by (intros ->; now rewrite (proj2 (tid_eqb_eq _ _) eq_refl) in Eg).
      rewrite (dict_get_set_other tid_eqb tid_eqb_eq) in Hg by assumption.
      rewrite (Hown _ _ Hg k). split.
      * intros [H|[H|[e [He [Ht Hk]]]]]; auto.
        right; right. exists e. split; [apply in_or_app; now left | now split].
      * intros [H|[H|[e [He [Ht Hk]]]]]; auto.
        apply in_app_or in He as [He|[<-|[]]].
        -- right; right. now exists e.
        -- now symmetry in Ht.
Qed.

Lemma buckets_of_fields (r : row) (fs : list (string * field_cfg)) :
  forall done bk te bk' te',
    buckets_of done bk ->
    grouped_fields r fs (bk, te) = Ok (bk', te') ->
    buckets_of (done ++ fs) bk'.
Proof.
  induction fs as [|[col cfg] fs IH]; intros done bk te bk' te' Hinv H.
  - simpl in H. injection H as <- <-. now rewrite app_nil_r.
  - apply grouped_fields_cons in H as [val [E H]]. cbv zeta in H.
    apply (IH (done ++ [(col, cfg)])%list) in H.
    + now rewrite <- app_assoc in H.
    + now apply buckets_of_step.
Qed.

Lemma buckets_of_nil : buckets_of [] [].
Proof.
  split.
  - intros g. simpl. split; [tauto | intros [e [[] _]]].
  - intros g p H. discriminate.
Qed.

(** The messages are the buckets, in their order. *)
Lemma emit_buckets_telemetry (v : pyval) (bk : buckets) :
  forall (acc : list message) (w : world),
  exists msgs w',
    emit_buckets "T1.F01" v bk acc w = Ok ((acc ++ msgs)%list, w') /\
    map msg_payload msgs = map snd bk.
Proof.
  induction bk as [|[g p] bk IH]; intros acc w; simpl.
  - exists [], w. now rewrite app_nil_r.
  - unfold mbind. simpl.
    destruct (IH (acc ++ [{| msg_header :=
                               {| hdr_stream := "T1"; hdr_function := "F01";
                                  message_id := uuid4 w (calls w);
                                  protocol_version := v;
                                  sent_time := utcnow_ms w |};
                             msg_payload := p |}])%list (next w))
      as [msgs [w' [H Hp]]].
    eexists (_ :: msgs), w'. rewrite H, <- app_assoc. simpl.
    split; [reflexivity | now rewrite Hp].
Qed.

Lemma transform_telemetry_one_row (m : mapping) (r : row) (w : world)
      (bk : buckets) (te : pyval) :
  stream m = "T1.F01" ->
  grouped_fields r (fields m) ([], PyNone) = Ok (bk, te) ->
  exists msgs,
    run (transform m [r]) w = Ok msgs /\ map msg_payload msgs = map snd bk.
Proof.
  intros Hs Hg. unfold run, transform. simpl. unfold mbind, transform_row.
  rewrite Hs. simpl. unfold mbind, lift. rewrite Hg. simpl.
  destruct (emit_buckets_telemetry (version m) bk [] w) as [msgs [w' [H Hp]]].
  exists msgs. rewrite H. simpl. now split.
Qed.

End Grouped.

(** ** Telemetry: one row, two turbines *)

Lemma singleton_of_NoDup {A : Type} (l : list A) (b : A) :
  NoDup l -> In b l -> (forall x, In x l -> x = b) -> l = [b].
Proof.
  intros Hnd Hb Hall. destruct l as [|x l]; [destruct Hb|].
  assert (x = b) by (apply Hall; now left). subst x.
  destruct l as [|y l]; [reflexivity|].
  assert (y = b) by (apply Hall; right; now left). subst y.
  inversion Hnd as [|? ? Hnot _]. exfalso. apply Hnot. now left.
Qed.

(** C1 (the code at the failing input). The time column is shared: it has no
    group key, and is declared before the columns of turbines A and B.  The
    row gives three messages and not two, one per turbine: the first message
    is for no turbine at all, with [None] under ["turbine_id"] and nothing
    but the timestamp. *)
Lemma shared_timestamp_gives_three_messages :
  exists msgs,
    run (transform telemetry_shared [telemetry_row]) (fixed_world 0 0) = Ok msgs /\
    map msg_payload msgs =
      [ [("turbine_id", PyNone); ("timestamp", PyStr "2024-04-03 10:00:00")];
        [("turbine_id", PyStr "A"); ("timestamp", PyStr "2024-04-03 10:00:00");
         ("power", PyInt 10)];
        [("turbine_id", PyStr "B"); ("timestamp", PyStr "2024-04-03 10:00:00");
         ("power", PyInt 20)] ] /\
    List.length msgs = 3%nat.
Proof. eexists. split; [vm_compute; reflexivity|]. split; reflexivity. Qed.

(** X17. In the stream T1.F01, take a row whose fields all carry the group
    key A or the group key B (two distinct keys), where the first declared
    field is the one tagged ["timestamp"], itself carries the key A, and no
    other field has that tag, and where some field carries B.  When every
    field coerces, the row gives exactly two messages, the first for A and
    the second for B; both payloads have the coerced timestamp under
    ["timestamp"], and the keys of each payload are exactly ["turbine_id"],
    ["timestamp"] and the tags of the fields of its own group. *)
Theorem telemetry_row_two_groups `{L : PyLib} (m : mapping) (r : row) (w : world)
        (col_ts : string) (cfg_ts : field_cfg) (rest : list (string * field_cfg))
        (A B : string) (ts : pyval) :
  stream m = "T1.F01" ->
  fields m = (col_ts, cfg_ts) :: rest ->
  tag cfg_ts = "timestamp" ->
  turbine_id cfg_ts = Some A ->
  A <> B ->
  Forall (fun e => (entry_tid e = Some A \/ entry_tid e = Some B) /\
                   entry_tag e <> "timestamp") rest ->
  Exists (fun e => entry_tid e = Some B) rest ->
  row_coerces (fields m) r ->
  parse_value (row_get col_ts r) cfg_ts = Ok ts ->
  exists mA mB,
    run (transform m [r]) w = Ok [mA; mB] /\
    dict_get String.eqb "timestamp" (msg_payload mA) = Some ts /\
    dict_get String.eqb "timestamp" (msg_payload mB) = Some ts /\
    own_keys (fields m) (Some A) (msg_payload mA) /\
    own_keys (fields m) (Some B) (msg_payload mB).
Proof.
  intros Hs Hf Htag Htid HAB Hrest HB Hok Hts.
  destruct (grouped_fields_total r (fields m) ([], PyNone) Hok) as [[bk te] Hg].
  assert (Hinv := buckets_of_fields r (fields m) [] [] PyNone bk te buckets_of_nil Hg).
  simpl in Hinv. destruct Hinv as [Hkeys Hown].
  destruct (transform_telemetry_one_row m r w bk te Hs Hg) as [msgs [Hrun Hpay]].
  rewrite Hf in Hg. apply grouped_fields_cons in Hg as [val [E Hg]].
  rewrite Hts in E. injection E as <-. cbv zeta in Hg.
  rewrite Htag, Htid in Hg. simpl in Hg.
  (* the rest of the fields leaves ts_epoch and the timestamps alone *)
  assert (Hall : all_timestamps ts [(Some A, [("turbine_id", PyStr A); ("timestamp", ts)])]).
  { intros g p H. simpl in H. destruct (tid_eqb g (Some A)); [|discriminate].
    now injection H as <-. }
  assert (Hnots : Forall (fun e => entry_tag e <> "timestamp") rest).
  { eapply Forall_impl; [|exact Hrest]. now intros e [_ H]. }
  destruct (no_timestamp_field_keeps r rest Hnots _ _ _ _ Hall Hg) as [_ Hall'].
  (* the keys of the buckets are A, then B *)
  assert (Hnd : NoDup (dict_keys [(Some A, [("turbine_id", PyStr A); ("timestamp", ts)])]))
    by (simpl; constructor; [tauto | constructor]).
  destruct (grouped_fields_keys r rest _ _ _ _ Hnd Hg) as [Hnd' [l Hl]].
  simpl in Hl.
  assert (Hl' : l = [Some B]).
  { rewrite Hl in Hnd'. inversion Hnd' as [|? ? HnotA Hndl]; subst.
    apply singleton_of_NoDup; [assumption| |].
    - apply Exists_exists in HB as [e [He HeB]].
      assert (Hin : In (Some B) (dict_keys bk)).
      { apply Hkeys. exists e. split; [rewrite Hf; now right | assumption]. }
      rewrite Hl in Hin. destruct Hin as [Hin|Hin]; [congruence | assumption].
    - intros x Hx.
      assert (Hin : In x (dict_keys bk)) by (rewrite Hl; now right).
      apply Hkeys in Hin as [e [He Hx']]. rewrite Hf in He.
      destruct He as [<-|He].
      + unfold entry_tid in Hx'. simpl in Hx'. rewrite Htid in Hx'. subst x. tauto.
      + rewrite Forall_forall in Hrest. destruct (Hrest e He) as [[HA|HB'] _].
        * rewrite HA in Hx'. subst x. tauto.
        * congruence. }
  subst l.
  destruct bk as [|[gA pA] [|[gB pB] [|x bk]]]; try discriminate.
  simpl in Hl. injection Hl as -> ->.
  destruct msgs as [|mA [|mB [|x msgs]]]; try discriminate.
  simpl in Hpay. injection Hpay as HpA HpB.
  exists mA, mB. rewrite HpA, HpB.
  assert (HgA : dict_get tid_eqb (Some A) [(Some A, pA); (Some B, pB)] = Some pA).
  { simpl. now rewrite String.eqb_refl. }
  assert (HgB : dict_get tid_eqb (Some B) [(Some A, pA); (Some B, pB)] = Some pB).
  { simpl. apply not_eq_sym, String.eqb_neq in HAB. now rewrite HAB, String.eqb_refl. }
  split; [exact Hrun|].
  split; [exact (Hall' _ _ HgA)|].
  split; [exact (Hall' _ _ HgB)|].
  split; [exact (Hown _ _ HgA) | exact (Hown _ _ HgB)].
Qed.

Lemma telemetry_row_two_groups_witness :
  exists mA mB,
    run (transform telemetry_keyed [telemetry_row]) (fixed_world 0 0) = Ok [mA; mB] /\
    dict_get String.eqb "timestamp" (msg_payload mA) = Some (PyStr "2024-04-03 10:00:00") /\
    dict_get String.eqb "timestamp" (msg_payload mB) = Some (PyStr "2024-04-03 10:00:00") /\
    own_keys (fields telemetry_keyed) (Some "A") (msg_payload mA) /\
    own_keys (fields telemetry_keyed) (Some "B") (msg_payload mB).
Proof.
  apply (telemetry_row_two_groups telemetry_keyed telemetry_row (fixed_world 0 0)
           "Time" (field "string" "timestamp" (Some "A")) power_fields
           "A" "B" (PyStr "2024-04-03 10:00:00")).
  - reflexivity.
  - reflexivity.
  - reflexivity.
  - reflexivity.
  - discriminate.
  - repeat constructor; try (now left); try (now right); discriminate.
  - apply Exists_cons_tl. apply Exists_cons_hd. reflexivity.
  - repeat constructor.
  - reflexivity.
Defined.

(** ** Telemetry: the timestamp of a group *)

(** C2 (counterexample). The time column carries the key of turbine A and is
    declared after the power column of A: the payload of A ends with the
    coerced timestamp, not with [None], because the value of the time column
    is stored in the bucket of A like any other field of A.  (The payload of
    B keeps [None].) *)
Lemma late_timestamp_of_own_group_is_stored :
  exists msgs,
    run (transform telemetry_late [telemetry_row]) (fixed_world 0 0) = Ok msgs /\
    map msg_payload msgs =
      [ [("turbine_id", PyStr "A"); ("timestamp", PyStr "2024-04-03 10:00:00");
         ("power", PyInt 10)];
        [("turbine_id", PyStr "B"); ("timestamp", PyNone); ("power", PyInt 20)] ].
Proof. eexists. split; [vm_compute; reflexivity | reflexivity]. Qed.

(** C2 (amended). In the stream T1.F01, let a field be the first of its row
    to carry the group key [g], and let every field coerce.  Right after this
    field the bucket of [g] is the seed -- the group key and the timestamp
    coerced so far in the declared order, this field included -- with the
    value of the field under its tag.  If moreover no field tagged
    ["timestamp"] has been processed up to this field, and no later field
    tagged ["timestamp"] carries the key [g] itself, then the payload of [g]
    in the messages of the row has [None] under ["timestamp"], whatever
    timestamp is coerced later for other group keys. *)
Theorem late_timestamp_is_not_patched `{L : PyLib} (m : mapping) (r : row) (w : world)
        (pre post : list (string * field_cfg)) (col : string) (cfg : field_cfg) :
  stream m = "T1.F01" ->
  fields m = (pre ++ (col, cfg) :: post)%list ->
  Forall (fun e => entry_tid e <> turbine_id cfg) pre ->
  row_coerces (fields m) r ->
  exists val bk1 bk te msgs,
    parse_value (row_get col r) cfg = Ok val /\
    grouped_fields r (pre ++ [(col, cfg)]) ([], PyNone) =
      Ok (bk1, timestamp_so_far r (pre ++ [(col, cfg)]) PyNone) /\
    dict_get tid_eqb (turbine_id cfg) bk1 =
      Some (dict_set String.eqb (tag cfg) val
              [("turbine_id", tid_value (turbine_id cfg));
               ("timestamp", timestamp_so_far r (pre ++ [(col, cfg)]) PyNone)]) /\
    grouped_fields r (fields m) ([], PyNone) = Ok (bk, te) /\
    run (transform m [r]) w = Ok msgs /\
    map msg_payload msgs = map snd bk /\
    (Forall (fun e => entry_tag e <> "timestamp") (pre ++ [(col, cfg)]) ->
     Forall (fun e => entry_tid e = turbine_id cfg -> entry_tag e <> "timestamp") post ->
     exists p, dict_get tid_eqb (turbine_id cfg) bk = Some p /\
               dict_get String.eqb "timestamp" p = Some PyNone).
Proof.
  intros Hs Hf Hfirst Hok.
  destruct (grouped_fields_total r (fields m) ([], PyNone) Hok) as [[bk te] Hg].
  destruct (transform_telemetry_one_row m r w bk te Hs Hg) as [msgs [Hrun Hpay]].
  assert (Hg' := Hg). rewrite Hf in Hg'.
  change (pre ++ (col, cfg) :: post)%list with (pre ++ [(col, cfg)] ++ post)%list in Hg'.
  rewrite app_assoc, grouped_fields_app in Hg'.
  destruct (grouped_fields r (pre ++ [(col, cfg)]) ([], PyNone)) as [[bk1 te1]|] eqn:H1;
    [cbn [bind] in Hg' | discriminate].
  assert (Hte1 := timestamp_so_far_spec r _ _ _ _ _ H1).
  assert (Hstep := H1). rewrite grouped_fields_app in Hstep.
  destruct (grouped_fields r pre ([], PyNone)) as [[bk0 te0]|] eqn:H0;
    [cbn [bind] in Hstep | discriminate].
  apply grouped_fields_cons in Hstep as [val [E Hstep]]. cbv zeta in Hstep.
  simpl in Hstep. injection Hstep as Hbk1 Hte.
  (* the key is new when the field is reached *)
  assert (Hnew : dict_get tid_eqb (turbine_id cfg) bk0 = None).
  { destruct (buckets_of_fields r pre [] [] PyNone bk0 te0 buckets_of_nil H0) as [Hkeys _].
    simpl in Hkeys.
    destruct (dict_get tid_eqb (turbine_id cfg) bk0) as [p|] eqn:Ep; [|reflexivity].
    assert (Hin : In (turbine_id cfg) (dict_keys bk0)).
    { apply (dict_mem_keys tid_eqb tid_eqb_eq). unfold dict_mem, buckets, payload in *.
      now rewrite Ep. }
    apply Hkeys in Hin as [e [He Ht]]. rewrite Forall_forall in Hfirst.
    now apply Hfirst in He. }
  unfold buckets, payload in *. rewrite Hnew in Hbk1. rewrite Hte in Hbk1.
  exists val, bk1, bk, te, msgs. subst te1.
  split; [exact E|]. split; [reflexivity|].
  split.
  { rewrite <- Hbk1. now rewrite (dict_get_set_same tid_eqb tid_eqb_eq). }
  split; [exact Hg|]. split; [exact Hrun|]. split; [exact Hpay|].
  intros Hnots Hpost.
  assert (Hnone : all_timestamps PyNone []) by (intros g p H; discriminate).
  destruct (no_timestamp_field_keeps r _ Hnots _ _ _ _ Hnone H1) as [Hte1 Hall1].
  eapply (group_timestamp_kept r (turbine_id cfg) PyNone post Hpost);
    [|exact Hg'].
  eexists. split.
  - rewrite <- Hbk1. apply (dict_get_set_same tid_eqb tid_eqb_eq).
  - apply (Hall1 (turbine_id cfg)). rewrite <- Hbk1.
    apply (dict_get_set_same tid_eqb tid_eqb_eq).
Qed.

Lemma late_timestamp_is_not_patched_witness :
  exists bk te p,
    grouped_fields telemetry_row (fields telemetry_late_shared) ([], PyNone) = Ok (bk, te) /\
    dict_get tid_eqb (Some "A") bk = Some p /\
    dict_get String.eqb "timestamp" p = Some PyNone.
Proof.
  destruct (late_timestamp_is_not_patched telemetry_late_shared telemetry_row
              (fixed_world 0 0) []
              [("PB", field "int" "power" (Some "B")); time_field None]
              "PA" (field "int" "power" (Some "A")))
    as [val [bk1 [bk [te [msgs [_ [_ [_ [Hg [_ [_ Hkept]]]]]]]]]]].
  - reflexivity.
  - reflexivity.
  - constructor.
  - repeat constructor.
  - destruct Hkept as [p [Hp Hts]].
    + repeat constructor; discriminate.
    + repeat constructor; discriminate.
    + exists bk, te, p. repeat split; assumption.
Defined.

(** ** Durations *)

(** C5 (counterexample). A text with four components is not rejected: the
    fourth is ignored and the first three give 3723.0. *)
Lemma duration_with_four_components_is_accepted :
  List.length (Text.split ":" "1:02:03:04") = 4%nat /\
  parse_value (PyStr "1:02:03:04") (field "duration" "downtime" None) =
    Ok (PyFloat (Float.of_dyadic 3723 0)).
Proof. split; vm_compute; reflexivity. Qed.

(** The only exceptions of [int] on a text: the text is not a literal, or
    it has too many digits. *)
Lemma int_of_string_error (s : string) (e : exn) :
  Text.int_of_string s = Raise e -> e = Text.invalid_int \/ e = Text.int_too_long.
Proof.
  unfold Text.int_of_string.
  destruct (Text.scan_sign _) as [neg l].
  destruct (Text.scan_digits 0 0 false l) as [[[n cnt] rest]|];
    [|intros H; injection H as <-; now left].
  destruct (Text.int_max_str_digits <? cnt);
    [intros H; injection H as <-; now right|].
  destruct rest; [|intros H; injection H as <-; now left].
  destruct (0 <? cnt); [discriminate|].
  intros H; injection H as <-; now left.
Qed.

Lemma int_of_string_raises (s : string) (e : exn) :
  Text.int_of_string s = Raise e -> exists reason, e = ValueError reason.
Proof.
  intros H. apply int_of_string_error in H as [->| ->]; eexists; reflexivity.
Qed.

(** C5 (amended). For every non-blank cell coerced with type [duration], let
    the parts be [str(raw).split(':')].  The coercion succeeds exactly when
    there are at least three parts, [int] accepts the first two, giving [H]
    and [M], [float] accepts the third, giving [S], and the integer
    [H*3600 + M*60] is within the range of a float; its result is then the
    float sum of that integer and [S], and parts after the third are
    ignored.  With fewer than three parts it raises [ValueError] (the first
    or second part is not accepted by [int]) or [IndexError].  In particular
    ["1:02:03.500"] gives 3723.5, ["0:00:00"] gives 0.0 and ["abc"] raises
    [ValueError]; so do a text whose hours follow the separator character 31,
    which [int] does not strip, and a text whose hours have 4301 digits,
    which [int] refuses. *)
Theorem duration_coercion `{L : PyLib} :
  (forall (raw : pyval) (cfg : field_cfg),
      isna raw = false ->
      type cfg = "duration" ->
      (forall v,
          parse_value raw cfg = Ok v <->
          exists p0 p1 p2 rest H M S W,
            Text.split ":" (py_str raw) = p0 :: p1 :: p2 :: rest /\
            Text.int_of_string p0 = Ok H /\
            Text.int_of_string p1 = Ok M /\
            Text.float_of_string p2 = Ok S /\
            Float.of_int (H * 3600 + M * 60) = Ok W /\
            v = PyFloat (Float.add W S)) /\
      ((List.length (Text.split ":" (py_str raw)) < 3)%nat ->
       (exists reason, parse_value raw cfg = Raise (ValueError reason)) \/
       parse_value raw cfg = Raise IndexError)) /\
  parse_value (PyStr "1:02:03.500") (field "duration" "downtime" None) =
    Ok (PyFloat (Float.of_dyadic 7447 (-1))) /\
  parse_value (PyStr "0:00:00") (field "duration" "downtime" None) =
    Ok (PyFloat (S754_zero false)) /\
  parse_value (PyStr "abc") (field "duration" "downtime" None) =
    Raise Text.invalid_int /\
  parse_value (PyStr (String (ascii_of_nat 31) "1:02:03"))
              (field "duration" "downtime" None) =
    Raise Text.invalid_int /\
  parse_value (PyStr (string_of_list_ascii (repeat "1"%char 4301) ++ ":02:03"))
              (field "duration" "downtime" None) =
    Raise Text.int_too_long.
Proof.
  split; [|repeat split; vm_compute; reflexivity].
  intros raw cfg Hblank Hty.
  unfold parse_value. rewrite Hblank, Hty. simpl.
  unfold parse_duration.
  assert (Hne := split_nonempty ":" (py_str raw)).
  destruct (Text.split ":" (py_str raw)) as [|p0 [|p1 [|p2 rest]]];
    [congruence| | |]; unfold item; simpl.
  - split.
    + intros v. split.
      * destruct (Text.int_of_string p0); simpl; discriminate.
      * intros [? [? [? [? [? [? [? [? [Hsplit _]]]]]]]]]. discriminate.
    + intros _. destruct (Text.int_of_string p0) as [H|e] eqn:E0; simpl; auto.
      apply int_of_string_raises in E0 as [reason ->]. left. now exists reason.
  - split.
    + intros v. split.
      * destruct (Text.int_of_string p0); simpl; [|discriminate].
        destruct (Text.int_of_string p1); simpl; discriminate.
      * intros [? [? [? [? [? [? [? [? [Hsplit _]]]]]]]]]. discriminate.
    + intros _. destruct (Text.int_of_string p0) as [H|e] eqn:E0; simpl.
      * destruct (Text.int_of_string p1) as [M|e] eqn:E1; simpl; auto.
        apply int_of_string_raises in E1 as [reason ->]. left. now exists reason.
      * apply int_of_string_raises in E0 as [reason ->]. left. now exists reason.
  - split; [|simpl; lia].
    intros v. split.
    + intros Hv.
      destruct (Text.int_of_string p0) as [H|] eqn:E0; simpl in Hv; [|discriminate].
      destruct (Text.int_of_string p1) as [M|] eqn:E1; simpl in Hv; [|discriminate].
      destruct (Text.float_of_string p2) as [S|] eqn:E2; simpl in Hv; [|discriminate].
      destruct (Float.of_int (H * 3600 + M * 60)) as [W|] eqn:E3; simpl in Hv;
        [|discriminate].
      injection Hv as <-.
      exists p0, p1, p2, rest, H, M, S, W. repeat split; assumption.
    + intros [q0 [q1 [q2 [rest' [H [M [S [W [Hsplit [E0 [E1 [E2 [E3 ->]]]]]]]]]]]]].
      injection Hsplit as <- <- <- <-.
      rewrite E0. simpl. rewrite E1. simpl. rewrite E2. simpl. rewrite E3. reflexivity.
Qed.

Lemma duration_coercion_witness :
  parse_value (PyStr "1:02:03.500") (field "duration" "downtime" None) =
    Ok (PyFloat (Float.add (Float.of_dyadic 465 3) (Float.of_dyadic 7 (-1)))).
Proof.
  destruct (@duration_coercion plain_lib) as [Hgen _].
  destruct (Hgen (PyStr "1:02:03.500") (field "duration" "downtime" None)
                 eq_refl eq_refl) as [Hiff _].
  apply Hiff.
  exists "1", "02", "03.500", [], 1, 2, (Float.of_dyadic 7 (-1)), (Float.of_dyadic 465 3).
  repeat split; vm_compute; reflexivity.
Defined.

(** ** Integers *)

Section IntLiterals.

Import Decimal.

Lemma uint_value_acc (d : uint) (acc : positive) :
  uint_value (Zpos acc) d = Zpos (Pos.of_uint_acc d acc).
Proof.
  revert acc. induction d; intros acc; cbn [uint_value Pos.of_uint_acc];
    try reflexivity;
    match goal with
    | |- uint_value ?z _ = _ =>
        match goal with
        | |- _ = Zpos (Pos.of_uint_acc _ ?q) =>
            replace z with (Zpos q) by lia; apply IHd
        end
    end.
Qed.

Lemma uint_value_of_uint (d : uint) : uint_value 0 d = Z.of_N (Pos.of_uint d).
Proof.
  induction d; simpl; try reflexivity; try assumption; apply uint_value_acc.
Qed.

Lemma uint_value_to_uint (p : positive) : uint_value 0 (Pos.to_uint p) = Zpos p.
Proof.
  now rewrite uint_value_of_uint, DecimalPos.Unsigned.of_to.
Qed.

(** The digits of a numeral are read back as its value. *)
Lemma scan_digits_chars (d : uint) :
  forall acc cnt,
  exists c, cnt <= c /\
    Text.scan_digits acc cnt true (chars d) = Some (uint_value acc d, c, []).
Proof.
  unfold chars.
  induction d; intros acc cnt; simpl;
    try (destruct (IHd (acc * 10 + 0) (cnt + 1)) as [c [Hc H]]; exists c; split; [lia | exact H]);
    try (destruct (IHd (acc * 10 + 1) (cnt + 1)) as [c [Hc H]]; exists c; split; [lia | exact H]);
    try (destruct (IHd (acc * 10 + 2) (cnt + 1)) as [c [Hc H]]; exists c; split; [lia | exact H]);
    try (destruct (IHd (acc * 10 + 3) (cnt + 1)) as [c [Hc H]]; exists c; split; [lia | exact H]);
    try (destruct (IHd (acc * 10 + 4) (cnt + 1)) as [c [Hc H]]; exists c; split; [lia | exact H]);
    try (destruct (IHd (acc * 10 + 5) (cnt + 1)) as [c [Hc H]]; exists c; split; [lia | exact H]);
    try (destruct (IHd (acc * 10 + 6) (cnt + 1)) as [c [Hc H]]; exists c; split; [lia | exact H]);
    try (destruct (IHd (acc * 10 + 7) (cnt + 1)) as [c [Hc H]]; exists c; split; [lia | exact H]);
    try (destruct (IHd (acc * 10 + 8) (cnt + 1)) as [c [Hc H]]; exists c; split; [lia | exact H]);
    try (destruct (IHd (acc * 10 + 9) (cnt + 1)) as [c [Hc H]]; exists c; split; [lia | exact H]).
  exists cnt. split; [lia | reflexivity].
Qed.

Lemma scan_digits_numeral (d : uint) :
  d <> Nil ->
  exists c, 0 < c /\
    Text.scan_digits 0 0 false (chars d) = Some (uint_value 0 d, c, []).
Proof.
  unfold chars. intros Hd.
  destruct d; [congruence| | | | | | | | | |]; simpl;
    match goal with
    | |- exists c, _ /\ Text.scan_digits ?a 1 true _ = _ =>
        destruct (scan_digits_chars d a 1) as [c [Hc H]];
        exists c; split; [lia | exact H]
    end.
Qed.

Lemma chars_no_space (d : uint) : Forall (fun c => Text.is_space c = false) (chars d).
Proof.
  unfold chars. induction d; simpl; constructor; try reflexivity; assumption.
Qed.

Lemma chars_no_sign (d : uint) : Text.scan_sign (chars d) = (false, chars d).
Proof. unfold chars. destruct d; reflexivity. Qed.

End IntLiterals.

Lemma lstrip_no_space (l : list ascii) :
  Forall (fun c => Text.is_space c = false) l -> Text.lstrip l = l.
Proof. intros H. destruct H as [|c l Hc Hl]; simpl; [reflexivity | now rewrite Hc]. Qed.

Lemma strip_no_space (l : list ascii) :
  Forall (fun c => Text.is_space c = false) l -> Text.strip l = l.
Proof.
  intros H. unfold Text.strip. rewrite (lstrip_no_space l H).
  rewrite lstrip_no_space by now apply Forall_rev.
  apply rev_involutive.
Qed.

Lemma string_of_uint_nonnil (d : Decimal.uint) :
  d <> Decimal.Nil -> NilZero.string_of_uint d = NilEmpty.string_of_uint d.
Proof. destruct d; [congruence | reflexivity ..]. Qed.

(** The digits of a numeral are all counted. *)
Lemma scan_digits_chars_count (d : Decimal.uint) :
  forall acc cnt,
    Text.scan_digits acc cnt true (chars d) =
      Some (uint_value acc d, cnt + Z.of_nat (Decimal.nb_digits d), []).
Proof.
  unfold chars.
  induction d; intros acc cnt; simpl;
    try (rewrite IHd, Zpos_P_of_succ_nat;
         now replace (cnt + 1 + Z.of_nat (Decimal.nb_digits d))
               with (cnt + Z.succ (Z.of_nat (Decimal.nb_digits d))) by lia).
  now rewrite Z.add_0_r.
Qed.

Lemma scan_digits_numeral_count (d : Decimal.uint) :
  d <> Decimal.Nil ->
  Text.scan_digits 0 0 false (chars d) =
    Some (uint_value 0 d, Z.of_nat (Decimal.nb_digits d), []).
Proof.
  unfold chars. intros Hd.
  destruct d; try congruence; simpl;
    match goal with
    | |- Text.scan_digits ?a 1 true _ = _ =>
        change (list_ascii_of_string (NilEmpty.string_of_uint d)) with (chars d);
        rewrite (scan_digits_chars_count d a 1), Zpos_P_of_succ_nat;
        now replace (1 + Z.of_nat (Decimal.nb_digits d))
              with (Z.succ (Z.of_nat (Decimal.nb_digits d))) by lia
    end.
Qed.

Lemma uint_value_split (d : Decimal.uint) (acc : Z) :
  uint_value acc d = acc * 10 ^ Z.of_nat (Decimal.nb_digits d) + uint_value 0 d.
Proof.
  revert acc. induction d; intros acc; cbn [uint_value Decimal.nb_digits];
    try (rewrite (IHd (acc * 10 + _)), (IHd (0 * 10 + _)),
           Nat2Z.inj_succ, Z.pow_succ_r by lia; ring).
  simpl. lia.
Qed.

Lemma uint_value_bounds (d : Decimal.uint) :
  0 <= uint_value 0 d < 10 ^ Z.of_nat (Decimal.nb_digits d).
Proof.
  induction d; cbn [uint_value Decimal.nb_digits];
    try (rewrite uint_value_split, Nat2Z.inj_succ, Z.pow_succ_r by lia; lia).
  simpl. lia.
Qed.

(** A numeral that does not start with 0 is at least the power of ten of its
    other digits. *)
Lemma uint_value_lower (d : Decimal.uint) :
  d <> Decimal.Nil -> (forall d', d <> Decimal.D0 d') ->
  10 ^ (Z.of_nat (Decimal.nb_digits d) - 1) <= uint_value 0 d.
Proof.
  intros Hnil Hzero.
  destruct d; try congruence; try (exfalso; now apply (Hzero d));
    cbn [uint_value Decimal.nb_digits];
    rewrite uint_value_split, Nat2Z.inj_succ;
    replace (Z.succ (Z.of_nat (Decimal.nb_digits d)) - 1)
      with (Z.of_nat (Decimal.nb_digits d)) by lia;
    assert (Hb := uint_value_bounds d); lia.
Qed.

Lemma to_uint_no_leading_zero (p : positive) (d' : Decimal.uint) :
  Pos.to_uint p <> Decimal.D0 d'.
Proof.
  assert (E := DecimalPos.Unsigned.to_of (Pos.to_uint p)).
  rewrite DecimalPos.Unsigned.of_to in E. cbn [N.to_uint] in E.
  unfold Decimal.unorm in E.
  destruct (Decimal.nzhead (Pos.to_uint p)) eqn:Eh;
    try (rewrite E, <- Eh; apply DecimalFacts.nzhead_nonzero).
  exfalso. now apply (DecimalPos.Unsigned.to_uint_nonzero p).
Qed.

(** A positive integer has at most [k] digits exactly when it is below
    [10^k]. *)
Lemma nb_digits_le (p : positive) (k : Z) :
  0 <= k ->
  (Z.of_nat (Decimal.nb_digits (Pos.to_uint p)) <= k <-> Zpos p < 10 ^ k).
Proof.
  intros Hk.
  assert (Hv := uint_value_to_uint p).
  assert (Hup := uint_value_bounds (Pos.to_uint p)).
  assert (Hlow := uint_value_lower (Pos.to_uint p)
                    (DecimalPos.Unsigned.to_uint_nonnil p)
                    (to_uint_no_leading_zero p)).
  rewrite Hv in Hup, Hlow.
  set (n := Z.of_nat (Decimal.nb_digits (Pos.to_uint p))) in *.
  split; intros H.
  - apply Z.lt_le_trans with (10 ^ n); [lia|].
    apply Z.pow_le_mono_r; lia.
  - destruct (Z.le_gt_cases n k) as [Hle|Hgt]; [assumption|]. exfalso.
    assert (10 ^ k <= 10 ^ (n - 1)) by (apply Z.pow_le_mono_r; lia).
    lia.
Qed.

(** [int(str(n))] is [n] for the integers of at most 4300 digits, and
    [int] refuses the decimal writing of the others. *)
Lemma int_of_string_of_int (n : Z) :
  Text.int_of_string (Text.string_of_int n) =
    if Z.abs n <? 10 ^ Text.int_max_str_digits then Ok n else Raise Text.int_too_long.
Proof.
  assert (Hpow : 0 < 10 ^ Text.int_max_str_digits) by (apply Z.pow_pos_nonneg; easy).
  destruct n as [|p|p];
    [destruct (Z.ltb_spec (Z.abs 0) (10 ^ Text.int_max_str_digits));
       [reflexivity | simpl in *; lia]| |];
    assert (Hnn := DecimalPos.Unsigned.to_uint_nonnil p);
    assert (H := scan_digits_numeral_count (Pos.to_uint p) Hnn);
    assert (Hd := nb_digits_le p Text.int_max_str_digits ltac:(easy));
    assert (Hpos : (0 <? Z.of_nat (Decimal.nb_digits (Pos.to_uint p))) = true)
      by (apply Z.ltb_lt; destruct (Pos.to_uint p); simpl; congruence || lia);
    unfold Text.int_of_string, Text.string_of_int, NilZero.string_of_int;
    cbn [Z.to_int Z.abs]; rewrite (string_of_uint_nonnil _ Hnn).
  - change (list_ascii_of_string (NilEmpty.string_of_uint (Pos.to_uint p)))
      with (chars (Pos.to_uint p)).
    rewrite (strip_no_space _ (chars_no_space _)), chars_no_sign, H.
    rewrite uint_value_to_uint, Hpos.
    destruct (Z.ltb_spec Text.int_max_str_digits
                (Z.of_nat (Decimal.nb_digits (Pos.to_uint p))));
      destruct (Z.ltb_spec (Zpos p) (10 ^ Text.int_max_str_digits));
      try reflexivity; exfalso; lia.
  - change (list_ascii_of_string (String "-" (NilEmpty.string_of_uint (Pos.to_uint p))))
      with ("-"%char :: chars (Pos.to_uint p)).
    rewrite strip_no_space by (constructor; [reflexivity | apply chars_no_space]).
    cbn [Text.scan_sign]. simpl Ascii.eqb. cbv iota.
    rewrite H, uint_value_to_uint, Hpos.
    destruct (Z.ltb_spec Text.int_max_str_digits
                (Z.of_nat (Decimal.nb_digits (Pos.to_uint p))));
      destruct (Z.ltb_spec (Zpos p) (10 ^ Text.int_max_str_digits));
      try reflexivity; exfalso; lia.
Qed.

Lemma lstrip_In (c : ascii) (l : list ascii) :
  Text.is_space c = false -> In c l -> In c (Text.lstrip l).
Proof.
  intros Hc. induction l as [|x l IH]; simpl; [tauto|].
  destruct (Text.is_space x) eqn:Ex; [|simpl; tauto].
  intros [->|H]; [congruence | now apply IH].
Qed.

Lemma strip_In (c : ascii) (l : list ascii) :
  Text.is_space c = false -> In c l -> In c (Text.strip l).
Proof.
  intros Hc H. unfold Text.strip.
  apply in_rev. rewrite rev_involutive.
  apply lstrip_In; [assumption|]. apply -> in_rev. now apply lstrip_In.
Qed.

Lemma scan_digits_keeps_dot (l : list ascii) :
  forall acc cnt b n c rest,
    In "."%char l ->
    Text.scan_digits acc cnt b l = Some (n, c, rest) ->
    In "."%char rest.
Proof.
  induction l as [|x l IH]; intros acc cnt b n c rest Hin H; [destruct Hin|].
  simpl in H. destruct (Text.digit_of x) as [d|] eqn:Ed.
  - destruct Hin as [->|Hin]; [discriminate|]. eapply IH; eassumption.
  - destruct (Ascii.eqb x "_") eqn:Eu.
    + destruct b; [|discriminate].
      destruct Hin as [->|Hin]; [discriminate|]. eapply IH; eassumption.
    + destruct (b || (cnt =? 0)); [|discriminate].
      now injection H as _ _ <-.
Qed.

Lemma dot_in_text (s1 s2 : string) :
  In "."%char (list_ascii_of_string (s1 ++ "." ++ s2)).
Proof. induction s1 as [|c s1 IH]; simpl; [now left | now right]. Qed.

(** A text with a decimal point is not an integer literal. *)
Lemma int_of_string_with_point (s1 s2 : string) :
  Text.int_of_string (s1 ++ "." ++ s2) = Raise Text.invalid_int \/
  Text.int_of_string (s1 ++ "." ++ s2) = Raise Text.int_too_long.
Proof.
  unfold Text.int_of_string.
  assert (Hin := strip_In "." _ eq_refl (dot_in_text s1 s2)).
  destruct (Text.strip _) as [|x l]; [destruct Hin|].
  assert (Hin' : In "."%char (snd (Text.scan_sign (x :: l)))).
  { simpl. destruct (Ascii.eqb x "-") eqn:E1; [|destruct (Ascii.eqb x "+") eqn:E2]; simpl;
      try assumption; destruct Hin as [->|Hin]; try discriminate; assumption. }
  destruct (Text.scan_sign (x :: l)) as [neg l']. simpl in Hin'.
  destruct (Text.scan_digits 0 0 false l') as [[[n cnt] rest]|] eqn:E; [|now left].
  apply (scan_digits_keeps_dot _ _ _ _ _ _ _ Hin') in E.
  destruct (Text.int_max_str_digits <? cnt); [now right|].
  destruct rest; [destruct E | now left].
Qed.

(** C7 (counterexample). The float cell 3.7 is not integral and is not
    rejected: it is truncated to 3. *)
Lemma fractional_float_is_truncated :
  Text.float_of_string "3.7" = Ok (Float.of_decimal false 37 (-1)) /\
  parse_value (PyFloat (Float.of_decimal false 37 (-1))) (field "int" "alarm_code" None)
  = Ok (PyInt 3).
Proof. split; vm_compute; reflexivity. Qed.

(** C7 (amended). For a field of type [int], the coercion is Python's
    [int(raw)]: an integer cell gives that integer; a text cell holding the
    decimal writing of an integer gives that integer when it has at most 4300
    digits, and raises [ValueError] when it has more; a finite float cell
    gives its value truncated toward zero (so an integral float gives its
    value, and a fractional one is truncated, not rejected); a text with a
    decimal point raises [ValueError].  White space around the literal is
    dropped, the separator character 31 is not; leading zeros count as
    digits. *)
Theorem int_coercion `{L : PyLib} (cfg : field_cfg) :
  type cfg = "int" ->
  (forall n, parse_value (PyInt n) cfg = Ok (PyInt n)) /\
  (forall n, Z.abs n < 10 ^ 4300 ->
             parse_value (PyStr (Text.string_of_int n)) cfg = Ok (PyInt n)) /\
  (forall n, 10 ^ 4300 <= Z.abs n ->
             parse_value (PyStr (Text.string_of_int n)) cfg = Raise Text.int_too_long) /\
  (forall sign m e,
      parse_value (PyFloat (S754_finite sign m e)) cfg =
        Ok (PyInt (cond_Zopp sign (if 0 <=? e then Zpos m * 2 ^ e
                                   else Zpos m / 2 ^ (- e))))) /\
  (forall sign, parse_value (PyFloat (S754_zero sign)) cfg = Ok (PyInt 0)) /\
  (forall s1 s2,
      parse_value (PyStr (s1 ++ "." ++ s2)) cfg = Raise Text.invalid_int \/
      parse_value (PyStr (s1 ++ "." ++ s2)) cfg = Raise Text.int_too_long) /\
  parse_value (PyStr " 12 ") cfg = Ok (PyInt 12) /\
  parse_value (PyStr (String (ascii_of_nat 31) "12")) cfg = Raise Text.invalid_int /\
  parse_value (PyStr (string_of_list_ascii (repeat "0"%char 4300) ++ "1")) cfg =
    Raise Text.int_too_long.
Proof.
  intros Hty. unfold parse_value. rewrite Hty.
  change (String.eqb "int" "string") with false.
  change (String.eqb "int" "int") with true.
  cbn [isna py_int bind Float.is_nan Float.trunc].
  split; [reflexivity|].
  split.
  { intros n Hn. rewrite int_of_string_of_int.
    change Text.int_max_str_digits with 4300.
    apply Z.ltb_lt in Hn. now rewrite Hn. }
  split.
  { intros n Hn. rewrite int_of_string_of_int.
    change Text.int_max_str_digits with 4300.
    apply Z.ltb_ge in Hn. now rewrite Hn. }
  split.
  { intros sign m e. do 2 f_equal. f_equal.
    destruct (Z.leb_spec 0 e).
    + now apply Z.shiftl_mul_pow2.
    + apply Z.shiftl_div_pow2. lia. }
  split; [reflexivity|].
  split.
  { intros s1 s2. destruct (int_of_string_with_point s1 s2) as [-> | ->]; auto. }
  repeat split; vm_compute; reflexivity.
Qed.

Lemma int_coercion_witness :
  parse_value (PyFloat (S754_finite false 5 (-1))) (field "int" "alarm_code" None)
  = Ok (PyInt 2) /\
  parse_value (PyStr (Text.string_of_int (-42))) (field "int" "alarm_code" None)
  = Ok (PyInt (-42)).
Proof.
  destruct (@int_coercion plain_lib (field "int" "alarm_code" None) eq_refl)
    as [_ [Hsmall [_ [H _]]]].
  split; [exact (H false 5%positive (-1))|].
  apply Hsmall. apply Z.pow_gt_lin_r || (apply Z.lt_le_trans with (10 ^ 2); [reflexivity|]).
  apply Z.pow_le_mono_r; lia.
Defined.

(** * Further properties of the engine *)

(** ** The run as payloads, then headers *)

Section Run.

Context {L : PyLib}.

Lemma emit_buckets_stamps (stream : string) (v : pyval) (bk : buckets) :
  forall (acc : list message) (w : world),
    emit_buckets stream v bk acc w =
      match stamp_payloads stream v (map snd bk) w with
      | Ok (ms, w') => Ok ((acc ++ ms)%list, w')
      | Raise e => Raise e
      end.
Proof.
  induction bk as [|[g p] bk IH]; intros acc w; simpl.
  - unfold mret. now rewrite app_nil_r.
  - unfold mbind. destruct (make_header stream v w) as [[h w1]|e]; [|reflexivity].
    rewrite IH.
    destruct (stamp_payloads stream v (map snd bk) w1) as [[ms w2]|e];
      [|reflexivity].
    unfold mret. now rewrite <- app_assoc.
Qed.

Lemma transform_row_stamps (m : mapping) (r : row) (acc : list message) (w : world) :
  transform_row m r acc w =
    match row_payloads m r with
    | Ok ps =>
        match stamp_payloads (stream m) (version m) ps w with
        | Ok (ms, w') => Ok ((acc ++ ms)%list, w')
        | Raise e => Raise e
        end
    | Raise e => Raise e
    end.
Proof.
  unfold transform_row, row_payloads.
  destruct (String.eqb (stream m) "T1.F01");
    [|destruct (String.eqb (stream m) "T1.F02");
      [|destruct (String.eqb (stream m) "T2.F01"); [|reflexivity]]].
  - unfold mbind, lift.
    destruct (grouped_fields r (fields m) ([], PyNone)) as [[bk te]|e];
      [|reflexivity].
    simpl. apply emit_buckets_stamps.
  - unfold mbind, lift.
    destruct (alarm_fields r (fields m) []) as [p|e]; [|reflexivity].
    simpl. unfold mbind, mret.
    now destruct (make_header (stream m) (version m) w) as [[h w1]|e].
  - unfold mbind, lift.
    destruct (curve_fields r (fields m) []) as [p|e]; [|reflexivity].
    simpl. unfold mbind, mret.
    now destruct (make_header (stream m) (version m) w) as [[h w1]|e].
Qed.

Lemma stamp_payloads_app (stream : string) (v : pyval) (ps qs : list payload) :
  forall w,
    stamp_payloads stream v (ps ++ qs) w =
      match stamp_payloads stream v ps w with
      | Ok (ms, w1) =>
          match stamp_payloads stream v qs w1 with
          | Ok (ns, w2) => Ok ((ms ++ ns)%list, w2)
          | Raise e => Raise e
          end
      | Raise e => Raise e
      end.
Proof.
  induction ps as [|p ps IH]; intros w; simpl.
  - unfold mret. now destruct (stamp_payloads stream v qs w) as [[ns w2]|e].
  - unfold mbind. destruct (make_header stream v w) as [[h w1]|e]; [|reflexivity].
    rewrite IH.
    destruct (stamp_payloads stream v ps w1) as [[ms w2]|e]; [|reflexivity].
    unfold mret. now destruct (stamp_payloads stream v qs w2) as [[ns w3]|e].
Qed.

(** A supported stream splits at its point: headers are always made. *)
Lemma stamp_payloads_supported (stream : string) (v : pyval) (ps : list payload) :
  supported_stream stream = true ->
  forall w, exists ms w', stamp_payloads stream v ps w = Ok (ms, w').
Proof.
  intros Hs. induction ps as [|p ps IH]; intros w; simpl.
  - now exists [], w.
  - unfold mbind, mret.
    assert (Hh : exists h, make_header stream v w = Ok (h, next w)).
    { unfold supported_stream in Hs.
      apply orb_true_iff in Hs as [Hs|Hs]; [apply orb_true_iff in Hs as [Hs|Hs]|];
        apply String.eqb_eq in Hs; subst stream; eexists; reflexivity. }
    destruct Hh as [h ->]. destruct (IH (next w)) as [ms [w' ->]].
    now eexists _, w'.
Qed.

Lemma row_payloads_supported (m : mapping) (r : row) (ps : list payload) :
  row_payloads m r = Ok ps -> supported_stream (stream m) = true.
Proof.
  unfold row_payloads, supported_stream.
  destruct (String.eqb (stream m) "T1.F01"); [reflexivity|].
  destruct (String.eqb (stream m) "T1.F02"); [reflexivity|].
  destruct (String.eqb (stream m) "T2.F01"); [reflexivity | discriminate].
Qed.

Lemma transform_rows_stamps (m : mapping) (rows : list row) :
  forall (acc : list message) (w : world),
    transform_rows m rows acc w =
      match table_payloads m rows with
      | Ok ps =>
          match stamp_payloads (stream m) (version m) ps w with
          | Ok (ms, w') => Ok ((acc ++ ms)%list, w')
          | Raise e => Raise e
          end
      | Raise e => Raise e
      end.
Proof.
  induction rows as [|r rows IH]; intros acc w; simpl.
  - unfold mret. now rewrite app_nil_r.
  - unfold mbind. rewrite transform_row_stamps.
    destruct (row_payloads m r) as [ps|e] eqn:Er; simpl; [|reflexivity].
    assert (Hs := row_payloads_supported m r ps Er).
    destruct (stamp_payloads_supported (stream m) (version m) ps Hs w) as [ms [w1 Hms]].
    rewrite Hms, IH.
    destruct (table_payloads m rows) as [pss|e]; simpl; [|reflexivity].
    rewrite stamp_payloads_app, Hms.
    destruct (stamp_payloads (stream m) (version m) pss w1) as [[ns w2]|e];
      [|reflexivity].
    now rewrite app_assoc.
Qed.

Lemma table_payloads_supported (m : mapping) (rows : list row) (ps : list payload) :
  table_payloads m rows = Ok ps -> ps = [] \/ supported_stream (stream m) = true.
Proof.
  destruct rows as [|r rows]; simpl; intros H.
  - left. now injection H.
  - right. destruct (row_payloads m r) as [qs|] eqn:E; [|discriminate].
    now apply row_payloads_supported in E.
Qed.

Lemma table_payloads_app (m : mapping) (rows1 rows2 : list row) :
  table_payloads m (rows1 ++ rows2) =
    (ps <- table_payloads m rows1 ;; qs <- table_payloads m rows2 ;; Ok (ps ++ qs)%list).
Proof.
  induction rows1 as [|r rows1 IH]; simpl.
  - now destruct (table_payloads m rows2).
  - destruct (row_payloads m r) as [ps|]; simpl; [|reflexivity].
    rewrite IH. destruct (table_payloads m rows1) as [pss|]; simpl; [|reflexivity].
    destruct (table_payloads m rows2) as [qs|]; simpl; [|reflexivity].
    now rewrite app_assoc.
Qed.

(** What the headers of a stamped list are. *)
Lemma stamp_payloads_headers (stream : string) (v : pyval) (ps : list payload) :
  forall w ms w',
    stamp_payloads stream v ps w = Ok (ms, w') ->
    map msg_payload ms = ps /\
    calls w' = (calls w + List.length ps)%nat /\
    uuid4 w' = uuid4 w /\ utcnow_us w' = utcnow_us w /\ utcoffset w' = utcoffset w /\
    map (fun msg => message_id (msg_header msg)) ms =
      map (uuid4 w) (seq (calls w) (List.length ps)) /\
    forall k msg,
      nth_error ms k = Some msg ->
      message_id (msg_header msg) = uuid4 w (calls w + k) /\
      protocol_version (msg_header msg) = v /\
      sent_time (msg_header msg) = utcnow_ms (at_call w (calls w + k)) /\
      stream = (hdr_stream (msg_header msg) ++ "." ++ hdr_function (msg_header msg))%string.
Proof.
  induction ps as [|p ps IH]; intros w ms w' H; simpl in H.
  - injection H as <- <-. simpl. rewrite Nat.add_0_r.
    do 6 (split; [reflexivity|]).
    intros [|k] msg Hk; discriminate.
  - unfold mbind, mret in H.
    destruct (make_header stream v w) as [[h w1]|] eqn:Eh; [|discriminate].
    destruct (stamp_payloads stream v ps w1) as [[ns w2]|] eqn:Es; [|discriminate].
    injection H as <- <-.
    unfold make_header in Eh.
    destruct (Text.split "." stream) as [|s [|f [|x xs]]] eqn:Esplit; try discriminate.
    injection Eh as <- <-.
    destruct (IH _ _ _ Es) as [Hp [Hc [Hu [Hn [Ho [Hids Hnth]]]]]].
    simpl in Hc, Hu, Hn, Ho, Hids.
    split; [simpl; now rewrite Hp|].
    split; [simpl; rewrite Hc; lia|].
    do 3 (split; [assumption|]).
    split; [simpl; now rewrite Hids|].
    intros [|k] msg Hk; simpl in Hk.
    + injection Hk as <-. simpl. rewrite Nat.add_0_r.
      split; [reflexivity|]. split; [reflexivity|].
      split; [|now apply split_two_join].
      unfold utcnow_ms. reflexivity.
    + destruct (Hnth k msg Hk) as [H1 [H2 [H3 H4]]].
      rewrite Nat.add_succ_r.
      split; [exact H1|]. split; [exact H2|]. split; [exact H3 | exact H4].
Qed.

Lemma transform_stamps (m : mapping) (rows : list row) (w : world) :
  transform m rows w =
    match table_payloads m rows with
    | Ok ps => stamp_payloads (stream m) (version m) ps w
    | Raise e => Raise e
    end.
Proof.
  unfold transform. rewrite transform_rows_stamps.
  destruct (table_payloads m rows) as [ps|e]; [|reflexivity].
  now destruct (stamp_payloads (stream m) (version m) ps w) as [[ms w']|e].
Qed.

Lemma transform_of_payloads (m : mapping) (rows : list row) (ps : list payload)
      (w : world) :
  table_payloads m rows = Ok ps ->
  exists ms w', transform m rows w = Ok (ms, w') /\ map msg_payload ms = ps.
Proof.
  intros Hps. rewrite transform_stamps, Hps.
  destruct (table_payloads_supported m rows ps Hps) as [->|Hs].
  - now exists [], w.
  - destruct (stamp_payloads_supported (stream m) (version m) ps Hs w) as [ms [w' H]].
    exists ms, w'. split; [assumption|].
    now destruct (stamp_payloads_headers _ _ _ _ _ _ H) as [Hp _].
Qed.

End Run.

(** X1. [transform] amounts to coercing the rows into their payloads, row
    after row up to the first row that raises, and then making one header
    per payload, in order: when a row raises, its exception is the result and
    no header is made. *)
Theorem transform_is_payloads_then_headers `{L : PyLib}
        (m : mapping) (rows : list row) (w : world) :
  transform m rows w =
    match table_payloads m rows with
    | Ok ps => stamp_payloads (stream m) (version m) ps w
    | Raise e => Raise e
    end.
Proof.
  unfold transform. rewrite transform_rows_stamps.
  destruct (table_payloads m rows) as [ps|e]; [|reflexivity].
  now destruct (stamp_payloads (stream m) (version m) ps w) as [[ms w']|e].
Qed.

(** X3. The run on a table made of two tables one after the other is the run
    on the first followed, in the world the first leaves, by the run on the
    second: the messages are those of the first table and then those of the
    second, and nothing is carried from one row to the next but the headers
    already drawn. *)
Theorem transform_of_concatenated_tables `{L : PyLib}
        (m : mapping) (rows1 rows2 : list row) (w : world) :
  transform m (rows1 ++ rows2) w =
    match transform m rows1 w with
    | Ok (ms1, w1) =>
        match transform m rows2 w1 with
        | Ok (ms2, w2) => Ok ((ms1 ++ ms2)%list, w2)
        | Raise e => Raise e
        end
    | Raise e => Raise e
    end.
Proof.
  rewrite !transform_stamps, table_payloads_app.
  destruct (table_payloads m rows1) as [ps|e] eqn:E1; simpl; [|reflexivity].
  destruct (transform_of_payloads m rows1 ps w E1) as [ms1 [w1 [H1 _]]].
  rewrite transform_stamps, E1 in H1. rewrite H1, transform_stamps.
  destruct (table_payloads m rows2) as [qs|e] eqn:E2; simpl; [|reflexivity].
  now rewrite stamp_payloads_app, H1.
Qed.

(** X5. When [transform] returns, it has made exactly one header per
    message, in order: the k-th message carries the identifier drawn by the
    k-th call of [make_header] of the run, the version of the mapping, the
    send time computed from the clock at that call, and the two parts of the
    stream of the mapping. *)
Theorem every_message_has_its_own_header `{L : PyLib}
        (m : mapping) (rows : list row) (w w' : world) (msgs : list message) :
  transform m rows w = Ok (msgs, w') ->
  calls w' = (calls w + List.length msgs)%nat /\
  forall k msg,
    nth_error msgs k = Some msg ->
    message_id (msg_header msg) = uuid4 w (calls w + k) /\
    protocol_version (msg_header msg) = version m /\
    sent_time (msg_header msg) = utcnow_ms (at_call w (calls w + k)) /\
    stream m = (hdr_stream (msg_header msg) ++ "." ++ hdr_function (msg_header msg))%string.
Proof.
  rewrite transform_stamps.
  destruct (table_payloads m rows) as [ps|e]; [|discriminate].
  intros H. destruct (stamp_payloads_headers _ _ _ _ _ _ H) as [Hp [Hc [_ [_ [_ [_ Hnth]]]]]].
  split; [|exact Hnth].
  rewrite Hc, <- Hp. now rewrite length_map.
Qed.

Lemma every_message_has_its_own_header_witness :
  exists msgs w',
    transform alarm_mapping alarm_rows (fixed_world 1700000000001000 0) = Ok (msgs, w') /\
    calls w' = (0 + List.length msgs)%nat /\
    forall k msg,
      nth_error msgs k = Some msg ->
      message_id (msg_header msg) = Text.string_of_int (Z.of_nat (0 + k)) /\
      protocol_version (msg_header msg) = PyStr "1.0" /\
      sent_time (msg_header msg) =
        utcnow_ms (at_call (fixed_world 1700000000001000 0) (0 + k)) /\
      "T1.F02" = (hdr_stream (msg_header msg) ++ "." ++ hdr_function (msg_header msg))%string.
Proof.
  eexists. eexists. split; [vm_compute; reflexivity|].
  apply (every_message_has_its_own_header alarm_mapping alarm_rows
           (fixed_world 1700000000001000 0)).
  vm_compute. reflexivity.
Defined.

Lemma NoDup_map_of_injective {A B : Type} (f : A -> B) (l : list A) :
  (forall x y, f x = f y -> x = y) -> NoDup l -> NoDup (map f l).
Proof.
  intros Hinj. induction 1 as [|x l Hx Hl IH]; simpl; constructor; [|assumption].
  intros Hin. apply in_map_iff in Hin as [y [Hy Hin]].
  apply Hinj in Hy. now subst y.
Qed.

(** X6. If the source of identifiers never returns the same identifier
    twice, no two messages of a run have the same [message_id]. *)
Theorem message_ids_are_distinct `{L : PyLib}
        (m : mapping) (rows : list row) (w w' : world) (msgs : list message) :
  (forall i j, uuid4 w i = uuid4 w j -> i = j) ->
  transform m rows w = Ok (msgs, w') ->
  NoDup (map (fun msg => message_id (msg_header msg)) msgs).
Proof.
  intros Hinj. rewrite transform_stamps.
  destruct (table_payloads m rows) as [ps|e]; [|discriminate].
  intros H. destruct (stamp_payloads_headers _ _ _ _ _ _ H) as [_ [_ [_ [_ [_ [Hids _]]]]]].
  rewrite Hids. apply NoDup_map_of_injective; [exact Hinj | apply seq_NoDup].
Qed.

Lemma to_int_not_nil (n : Z) :
  Z.to_int n <> Decimal.Pos Decimal.Nil /\ Z.to_int n <> Decimal.Neg Decimal.Nil.
Proof.
  destruct n as [|p|p]; simpl; split; try discriminate;
    intros H; injection H as H; now apply DecimalPos.Unsigned.to_uint_nonnil in H.
Qed.

Lemma string_of_int_injective (a b : Z) :
  Text.string_of_int a = Text.string_of_int b -> a = b.
Proof.
  unfold Text.string_of_int. intros H.
  destruct (to_int_not_nil a) as [Ha1 Ha2]. destruct (to_int_not_nil b) as [Hb1 Hb2].
  assert (Ha := NilZero.isi _ Ha1 Ha2). rewrite H, (NilZero.isi _ Hb1 Hb2) in Ha.
  injection Ha as Ha. symmetry. now apply DecimalZ.to_int_inj.
Qed.

Lemma message_ids_are_distinct_witness :
  exists msgs w',
    transform telemetry_shared [telemetry_row; telemetry_row] (fixed_world 0 0) =
      Ok (msgs, w') /\
    NoDup (map (fun msg => message_id (msg_header msg)) msgs).
Proof.
  eexists. eexists. split; [vm_compute; reflexivity|].
  eapply (message_ids_are_distinct telemetry_shared [telemetry_row; telemetry_row]
            (fixed_world 0 0)).
  - intros i j H. simpl in H. apply string_of_int_injective in H. lia.
  - vm_compute. reflexivity.
Defined.

(** ** The first failure *)

Section Failure.

Context {L : PyLib}.

Lemma alarm_fields_app (r : row) (fs1 fs2 : list (string * field_cfg)) (p : payload) :
  alarm_fields r (fs1 ++ fs2) p =
    (q <- alarm_fields r fs1 p ;; alarm_fields r fs2 q).
Proof.
  revert p. induction fs1 as [|[col cfg] fs1 IH]; intros p; simpl; [reflexivity|].
  destruct (parse_value (row_get col r) cfg); simpl; [apply IH | reflexivity].
Qed.

Lemma row_coerces_app (fs1 fs2 : list (string * field_cfg)) (r : row) :
  row_coerces (fs1 ++ fs2) r <-> row_coerces fs1 r /\ row_coerces fs2 r.
Proof. unfold row_coerces. apply Forall_app. Qed.

Lemma row_payloads_total (m : mapping) (r : row) :
  supported_stream (stream m) = true ->
  row_coerces (fields m) r ->
  exists ps, row_payloads m r = Ok ps.
Proof.
  unfold supported_stream, row_payloads. intros Hs Hr.
  destruct (String.eqb (stream m) "T1.F01").
  - destruct (grouped_fields_total r (fields m) ([], PyNone) Hr) as [st ->].
    eexists; reflexivity.
  - destruct (String.eqb (stream m) "T1.F02").
    + destruct (alarm_fields_total r (fields m) [] Hr) as [p ->]. eexists; reflexivity.
    + destruct (String.eqb (stream m) "T2.F01"); [|discriminate].
      rewrite curve_fields_is_alarm_fields.
      destruct (alarm_fields_total r (fields m) [] Hr) as [p ->]. eexists; reflexivity.
Qed.

Lemma table_payloads_total (m : mapping) (rows : list row) :
  supported_stream (stream m) = true ->
  Forall (row_coerces (fields m)) rows ->
  exists ps, table_payloads m rows = Ok ps.
Proof.
  intros Hs. induction 1 as [|r rows Hr Hrows [pss IH]]; simpl.
  - now exists [].
  - destruct (row_payloads_total m r Hs Hr) as [ps ->]. rewrite IH.
    eexists; reflexivity.
Qed.

Lemma row_payloads_first_failure (m : mapping) (r : row)
      (pre post : list (string * field_cfg)) (col : string) (cfg : field_cfg) (e : exn) :
  supported_stream (stream m) = true ->
  fields m = (pre ++ (col, cfg) :: post)%list ->
  row_coerces pre r ->
  parse_value (row_get col r) cfg = Raise e ->
  row_payloads m r = Raise e.
Proof.
  unfold supported_stream, row_payloads. intros Hs Hf Hpre He. rewrite Hf.
  destruct (String.eqb (stream m) "T1.F01").
  - rewrite grouped_fields_app.
    destruct (grouped_fields_total r pre ([], PyNone) Hpre) as [[bk te] ->].
    cbn [bind grouped_fields]. unfold grouped_field. now rewrite He.
  - destruct (String.eqb (stream m) "T1.F02").
    + rewrite alarm_fields_app.
      destruct (alarm_fields_total r pre [] Hpre) as [p ->].
      cbn [bind alarm_fields]. now rewrite He.
    + destruct (String.eqb (stream m) "T2.F01"); [|discriminate].
      rewrite curve_fields_is_alarm_fields, alarm_fields_app.
      destruct (alarm_fields_total r pre [] Hpre) as [p ->].
      cbn [bind alarm_fields]. now rewrite He.
Qed.

End Failure.

(** X4. In each of the three streams, the first cell that does not coerce
    ends the run: when the rows before a row all coerce, and in that row the
    fields declared before a field coerce but that field raises, [transform]
    raises that same exception, whatever the later fields and rows are, and
    returns no message, not even those of the rows that coerced. *)
Theorem first_failing_cell_aborts_the_run `{L : PyLib}
        (m : mapping) (good rest : list row) (bad : row)
        (pre post : list (string * field_cfg)) (col : string) (cfg : field_cfg)
        (e : exn) (w : world) :
  supported_stream (stream m) = true ->
  fields m = (pre ++ (col, cfg) :: post)%list ->
  Forall (row_coerces (fields m)) good ->
  row_coerces pre bad ->
  parse_value (row_get col bad) cfg = Raise e ->
  transform m (good ++ bad :: rest) w = Raise e.
Proof.
  intros Hs Hf Hgood Hpre He.
  rewrite transform_stamps, table_payloads_app.
  destruct (table_payloads_total m good Hs Hgood) as [ps ->].
  cbn [bind table_payloads].
  now rewrite (row_payloads_first_failure m bad pre post col cfg e Hs Hf Hpre He).
Qed.

Lemma first_failing_cell_aborts_the_run_witness :
  transform alarm_mapping
    (alarm_rows ++ [("Code", PyStr "4 2"); ("Desc", PyStr "x")] :: alarm_rows)
    (fixed_world 0 0)
  = Raise Text.invalid_int.
Proof.
  apply (first_failing_cell_aborts_the_run alarm_mapping alarm_rows alarm_rows
           [("Code", PyStr "4 2"); ("Desc", PyStr "x")]
           [] [("Desc", {| type := "string"; tag := "description";
                           default := Some (PyStr ""); timezone := None;
                           turbine_id := None |})]
           "Code" (field "int" "alarm_code" None)).
  - reflexivity.
  - reflexivity.
  - repeat constructor.
  - constructor.
  - vm_compute. reflexivity.
Defined.

(** ** Keys in first-sight order *)

Section FirstSeen.

Context {K V : Type} (eqb : K -> K -> bool).
Hypothesis eqb_eq : forall a b, eqb a b = true <-> a = b.

Lemma dict_mem_existsb (k : K) (d : list (K * V)) :
  dict_mem eqb k d = existsb (eqb k) (dict_keys d).
Proof.
  unfold dict_mem. induction d as [|[k' v] d IH]; simpl; [reflexivity|].
  now destruct (eqb k k').
Qed.

Lemma existsb_eqb_In (k : K) (l : list K) :
  existsb (eqb k) l = true <-> In k l.
Proof.
  rewrite existsb_exists. split.
  - intros [x [Hx Hk]]. apply eqb_eq in Hk. now subst.
  - intros H. exists k. split; [assumption | now apply eqb_eq].
Qed.

Lemma first_seen_In (l seen : list K) (x : K) :
  In x (first_seen eqb seen l) <-> In x seen \/ In x l.
Proof.
  revert seen. induction l as [|k l IH]; intros seen; simpl; [tauto|].
  rewrite IH. destruct (existsb (eqb k) seen) eqn:E.
  - apply existsb_eqb_In in E. split; [tauto|].
    intros [H|[<-|H]]; tauto.
  - rewrite in_app_iff. simpl. split; [tauto|]. intros [H|[<-|H]]; tauto.
Qed.

Lemma first_seen_NoDup (l seen : list K) :
  NoDup seen -> NoDup (first_seen eqb seen l).
Proof.
  revert seen. induction l as [|k l IH]; intros seen Hnd; simpl; [assumption|].
  apply IH. destruct (existsb (eqb k) seen) eqn:E; [assumption|].
  apply NoDup_snoc; [assumption|].
  intros Hin. apply existsb_eqb_In in Hin. congruence.
Qed.

Lemma dict_set_Forall (P : K * V -> Prop) (k : K) (v : V) (d : list (K * V)) :
  Forall P d -> P (k, v) -> Forall P (dict_set eqb k v d).
Proof.
  intros Hd Hk. induction Hd as [|[k' v'] d Hx Hd IH]; simpl.
  - constructor; [assumption | constructor].
  - destruct (eqb k k') eqn:E.
    + apply eqb_eq in E. subst k'. now constructor.
    + now constructor.
Qed.

Lemma dict_get_In (k : K) (v : V) (d : list (K * V)) :
  dict_get eqb k d = Some v -> In (k, v) d.
Proof.
  induction d as [|[k' v'] d IH]; simpl; [discriminate|].
  destruct (eqb k k') eqn:E.
  - apply eqb_eq in E. subst k'. intros H. injection H as ->. now left.
  - intros H. right. now apply IH.
Qed.

Lemma dict_get_None_keys (k : K) (d : list (K * V)) :
  dict_get eqb k d = None <-> ~ In k (dict_keys d).
Proof.
  rewrite <- (dict_mem_keys eqb eqb_eq). unfold dict_mem.
  destruct (dict_get eqb k d); split; congruence.
Qed.

End FirstSeen.

Section GroupedRun.

Context {L : PyLib}.

Lemma grouped_fields_first_seen (r : row) (fs : list (string * field_cfg)) :
  forall bk te bk' te',
    grouped_fields r fs (bk, te) = Ok (bk', te') ->
    dict_keys bk' = first_seen tid_eqb (dict_keys bk) (map entry_tid fs).
Proof.
  induction fs as [|[col cfg] fs IH]; intros bk te bk' te' H.
  - simpl in H. now injection H as <- <-.
  - apply grouped_fields_cons in H as [val [E H]]. cbv zeta in H.
    apply IH in H. rewrite H. simpl.
    now rewrite (dict_keys_set tid_eqb), (dict_mem_existsb tid_eqb).
Qed.

Lemma alarm_fields_cons (r : row) (col : string) (cfg : field_cfg)
      (fs : list (string * field_cfg)) (p q : payload) :
  alarm_fields r ((col, cfg) :: fs) p = Ok q ->
  exists val,
    parse_value (row_get col r) cfg = Ok val /\
    alarm_fields r fs (dict_set String.eqb (tag cfg) val p) = Ok q.
Proof.
  cbn [alarm_fields]. destruct (parse_value (row_get col r) cfg) as [val|];
    [|discriminate].
  intros H. now exists val.
Qed.

Lemma alarm_fields_first_seen (r : row) (fs : list (string * field_cfg)) :
  forall p q,
    alarm_fields r fs p = Ok q ->
    dict_keys q = first_seen String.eqb (dict_keys p) (map entry_tag fs).
Proof.
  induction fs as [|[col cfg] fs IH]; intros p q H.
  - simpl in H. now injection H as <-.
  - apply alarm_fields_cons in H as [val [E H]].
    apply IH in H. rewrite H. simpl.
    now rewrite (dict_keys_set String.eqb), (dict_mem_existsb String.eqb).
Qed.

Lemma alarm_fields_last_tagged (r : row) (fs : list (string * field_cfg)) :
  forall p q,
    alarm_fields r fs p = Ok q ->
    forall k, dict_get String.eqb k q = last_tagged r fs k (dict_get String.eqb k p).
Proof.
  induction fs as [|[col cfg] fs IH]; intros p q H k.
  - simpl in H. now injection H as <-.
  - apply alarm_fields_cons in H as [val [E H]].
    rewrite (IH _ _ H k). cbn [last_tagged]. rewrite E. f_equal.
    destruct (String.eqb k (tag cfg)) eqn:Ek.
    + apply String.eqb_eq in Ek. subst k.
      apply (dict_get_set_same String.eqb String.eqb_eq).
    + apply String.eqb_neq in Ek.
      now apply (dict_get_set_other String.eqb String.eqb_eq).
Qed.

(** An existing bucket receives the fields of its group as a flat payload
    would. *)
Lemma grouped_bucket_is_flat (r : row) (g : option string)
      (fs : list (string * field_cfg)) :
  forall bk te bk' te' p0,
    dict_get tid_eqb g bk = Some p0 ->
    grouped_fields r fs (bk, te) = Ok (bk', te') ->
    exists p, dict_get tid_eqb g bk' = Some p /\
              alarm_fields r (group_fields g fs) p0 = Ok p.
Proof.
  induction fs as [|[col cfg] fs IH]; intros bk te bk' te' p0 Hg H.
  - simpl in H. injection H as <- <-. now exists p0.
  - apply grouped_fields_cons in H as [val [E H]]. cbv zeta in H.
    unfold group_fields. cbn [filter]. unfold entry_tid at 1. cbn [snd].
    destruct (tid_eqb (turbine_id cfg) g) eqn:Eg.
    + apply tid_eqb_eq in Eg. subst g.
      unfold buckets, payload in *. rewrite Hg in H.
      cbn [alarm_fields]. rewrite E. cbn [bind].
      eapply IH; [|exact H].
      apply (dict_get_set_same tid_eqb tid_eqb_eq).
    + eapply IH; [|exact H].
      rewrite (dict_get_set_other tid_eqb tid_eqb_eq); [assumption|].
      intros ->. now rewrite (proj2 (tid_eqb_eq _ _) eq_refl) in Eg.
Qed.

Lemma group_fields_none (g : option string) (fs : list (string * field_cfg)) :
  Forall (fun e => entry_tid e <> g) fs -> group_fields g fs = [].
Proof.
  unfold group_fields. induction 1 as [|e fs He Hfs IH]; simpl; [reflexivity|].
  destruct (tid_eqb (entry_tid e) g) eqn:E; [|assumption].
  now apply tid_eqb_eq in E.
Qed.

(** Without a field tagged ["turbine_id"], every bucket keeps its group key
    under ["turbine_id"]. *)
Lemma grouped_fields_keep_key (r : row) (fs : list (string * field_cfg)) :
  Forall (fun e => entry_tag e <> "turbine_id") fs ->
  forall bk te bk' te',
    Forall (fun gp => dict_get String.eqb "turbine_id" (snd gp) = Some (tid_value (fst gp))) bk ->
    grouped_fields r fs (bk, te) = Ok (bk', te') ->
    Forall (fun gp => dict_get String.eqb "turbine_id" (snd gp) = Some (tid_value (fst gp))) bk'.
Proof.
  induction 1 as [|[col cfg] fs Htag Hfs IH]; intros bk te bk' te' Hinv H.
  - simpl in H. now injection H as <- <-.
  - apply grouped_fields_cons in H as [val [E H]]. cbv zeta in H.
    apply IH in H; [exact H|]. clear IH H.
    unfold entry_tag in Htag. simpl in Htag.
    apply (dict_set_Forall tid_eqb tid_eqb_eq); [assumption|]. simpl.
    rewrite (dict_get_set_other String.eqb String.eqb_eq) by congruence.
    unfold buckets, payload in *.
    destruct (dict_get tid_eqb (turbine_id cfg) bk) as [p|] eqn:Ep; [|reflexivity].
    apply (dict_get_In tid_eqb tid_eqb_eq) in Ep.
    rewrite Forall_forall in Hinv. exact (Hinv _ Ep).
Qed.

Lemma table_payloads_telemetry (m : mapping) (rows : list row) :
  stream m = "T1.F01" ->
  Forall (row_coerces (fields m)) rows ->
  exists bks,
    table_payloads m rows = Ok (List.concat (map (map snd) bks)) /\
    Forall2 (fun r bk => exists te,
                 grouped_fields r (fields m) ([], PyNone) = Ok (bk, te))
            rows bks.
Proof.
  intros Hs. induction 1 as [|r rows Hr Hrows [bks [IH1 IH2]]]; simpl.
  - exists []. split; constructor.
  - destruct (grouped_fields_total r (fields m) ([], PyNone) Hr) as [[bk te] Hg].
    exists (bk :: bks). split.
    + unfold row_payloads. rewrite Hs. simpl. rewrite Hg, IH1. reflexivity.
    + constructor; [now exists te | assumption].
Qed.

End GroupedRun.

Lemma concat_length_uniform {A : Type} (n : nat) (ls : list (list A)) :
  Forall (fun l => List.length l = n) ls ->
  List.length (List.concat ls) = (List.length ls * n)%nat.
Proof.
  induction 1 as [|l ls Hl Hls IH]; simpl; [reflexivity|].
  now rewrite length_app, IH, Hl.
Qed.

(** X7. In the stream T1.F01, when every field of every row coerces, each
    row gives one message per distinct group key of the mapping (the absent
    key counts as one), in the order in which the keys first appear among the
    declared fields; each row fills buckets of its own, starting from none,
    so that a table gives as many messages as rows times distinct keys. *)
Theorem telemetry_one_message_per_group_key `{L : PyLib}
        (m : mapping) (rows : list row) (w : world) :
  stream m = "T1.F01" ->
  Forall (row_coerces (fields m)) rows ->
  NoDup (first_seen tid_eqb [] (map entry_tid (fields m))) /\
  (forall g, In g (first_seen tid_eqb [] (map entry_tid (fields m))) <->
             exists e, In e (fields m) /\ entry_tid e = g) /\
  exists msgs bks,
    run (transform m rows) w = Ok msgs /\
    Forall2 (fun r bk =>
               (exists te, grouped_fields r (fields m) ([], PyNone) = Ok (bk, te)) /\
               dict_keys bk = first_seen tid_eqb [] (map entry_tid (fields m)))
            rows bks /\
    map msg_payload msgs = List.concat (map (map snd) bks) /\
    List.length msgs =
      (List.length rows *
       List.length (first_seen tid_eqb [] (map entry_tid (fields m))))%nat.
Proof.
  intros Hs Hrows.
  split; [apply (first_seen_NoDup tid_eqb tid_eqb_eq); constructor|].
  split.
  { intros g. rewrite (first_seen_In tid_eqb tid_eqb_eq), in_map_iff. simpl.
    split.
    - intros [[]|[e [He Hin]]]. now exists e.
    - intros [e [Hin He]]. right. now exists e. }
  destruct (table_payloads_telemetry m rows Hs Hrows) as [bks [Hps Hbks]].
  destruct (transform_of_payloads m rows _ w Hps) as [msgs [w' [Hrun Hpay]]].
  assert (Hkeys : Forall2 (fun r bk =>
            (exists te, grouped_fields r (fields m) ([], PyNone) = Ok (bk, te)) /\
            dict_keys bk = first_seen tid_eqb [] (map entry_tid (fields m))) rows bks).
  { clear - Hbks. induction Hbks as [|r bk rows bks [te Hg] _ IH]; constructor;
      [|assumption].
    split; [now exists te|].
    now apply grouped_fields_first_seen in Hg. }
  exists msgs, bks. unfold run. rewrite Hrun.
  split; [reflexivity|]. split; [exact Hkeys|]. split; [exact Hpay|].
  rewrite <- (length_map msg_payload), Hpay.
  rewrite (concat_length_uniform
             (List.length (first_seen tid_eqb [] (map entry_tid (fields m))))).
  - rewrite length_map. f_equal. symmetry. eapply Forall2_length; eassumption.
  - clear - Hkeys. induction Hkeys as [|r bk rows bks [_ Hk] _ IH]; simpl;
      constructor; [|assumption].
    rewrite length_map, <- Hk. unfold dict_keys. now rewrite length_map.
Qed.

Lemma telemetry_one_message_per_group_key_witness :
  exists msgs,
    run (transform telemetry_shared [telemetry_row; telemetry_row]) (fixed_world 0 0)
      = Ok msgs /\
    List.length msgs = (2 * 3)%nat.
Proof.
  destruct (telemetry_one_message_per_group_key telemetry_shared
              [telemetry_row; telemetry_row] (fixed_world 0 0))
    as [_ [_ [msgs [bks [Hrun [_ [_ Hlen]]]]]]].
  - reflexivity.
  - repeat constructor.
  - exists msgs. split; [exact Hrun | exact Hlen].
Defined.

(** X8. In the stream T1.F01, the payload of a group key is the flat payload
    of the fields that carry this key: it is what the loop of the flat
    streams builds from these fields alone, in declared order, starting from
    the seed made of the group key and of the timestamp coerced up to the
    first field of the group. *)
Theorem group_payload_is_flat_over_its_fields `{L : PyLib} (r : row)
        (pre post : list (string * field_cfg)) (col : string) (cfg : field_cfg) :
  Forall (fun e => entry_tid e <> turbine_id cfg) pre ->
  row_coerces (pre ++ (col, cfg) :: post) r ->
  exists bk te p,
    grouped_fields r (pre ++ (col, cfg) :: post) ([], PyNone) = Ok (bk, te) /\
    dict_get tid_eqb (turbine_id cfg) bk = Some p /\
    alarm_fields r (group_fields (turbine_id cfg) (pre ++ (col, cfg) :: post))
      [("turbine_id", tid_value (turbine_id cfg));
       ("timestamp", timestamp_so_far r (pre ++ [(col, cfg)]) PyNone)] = Ok p.
Proof.
  intros Hfirst Hok.
  destruct (grouped_fields_total r _ ([], PyNone) Hok) as [[bk te] Hg].
  exists bk, te. assert (Hg' := Hg).
  rewrite grouped_fields_app in Hg'.
  destruct (grouped_fields r pre ([], PyNone)) as [[bk0 te0]|] eqn:H0;
    [cbn [bind] in Hg' | discriminate].
  apply grouped_fields_cons in Hg' as [val [E Hpost]]. cbv zeta in Hpost.
  (* the key is new when its first field is reached *)
  assert (Hnew : dict_get tid_eqb (turbine_id cfg) bk0 = None).
  { apply (dict_get_None_keys tid_eqb tid_eqb_eq).
    destruct (buckets_of_fields r pre [] [] PyNone bk0 te0 buckets_of_nil H0) as [Hkeys _].
    simpl in Hkeys. intros Hin. apply Hkeys in Hin as [e [He Ht]].
    rewrite Forall_forall in Hfirst. now apply Hfirst in He. }
  (* the timestamp of the seed *)
  assert (Hts : (if String.eqb (tag cfg) "timestamp" then val else te0) =
                timestamp_so_far r (pre ++ [(col, cfg)]) PyNone).
  { assert (H1 : grouped_fields r (pre ++ [(col, cfg)]) ([], PyNone) =
                 Ok (dict_set tid_eqb (turbine_id cfg)
                       (dict_set String.eqb (tag cfg) val
                          [("turbine_id", tid_value (turbine_id cfg));
                           ("timestamp",
                            if String.eqb (tag cfg) "timestamp" then val else te0)])
                       bk0,
                     if String.eqb (tag cfg) "timestamp" then val else te0)).
    { rewrite grouped_fields_app, H0. cbn [bind grouped_fields].
      rewrite (grouped_field_step r bk0 te0 col cfg val E). cbv zeta.
      unfold buckets, payload in *. now rewrite Hnew. }
    exact (timestamp_so_far_spec r _ _ _ _ _ H1). }
  unfold buckets, payload in *. rewrite Hnew in Hpost.
  rewrite Hts in Hpost.
  destruct (grouped_bucket_is_flat r (turbine_id cfg) post _ _ _ _ _
              (dict_get_set_same tid_eqb tid_eqb_eq _ _ _) Hpost) as [p [Hp Hflat]].
  exists p. split; [exact Hg|]. split; [exact Hp|].
  unfold group_fields. rewrite filter_app.
  fold (group_fields (turbine_id cfg) pre).
  rewrite (group_fields_none _ _ Hfirst). cbn [app filter].
  unfold entry_tid at 1. cbn [snd].
  rewrite (proj2 (tid_eqb_eq _ _) eq_refl).
  cbn [alarm_fields]. rewrite E. exact Hflat.
Qed.

Lemma group_payload_is_flat_over_its_fields_witness :
  exists bk te p,
    grouped_fields telemetry_row
      ([time_field None; ("PA", field "int" "power" (Some "A"))] ++
       ("PB", field "int" "power" (Some "B")) :: []) ([], PyNone) = Ok (bk, te) /\
    dict_get tid_eqb (Some "B") bk = Some p /\
    alarm_fields telemetry_row
      (group_fields (Some "B")
         ([time_field None; ("PA", field "int" "power" (Some "A"))] ++
          ("PB", field "int" "power" (Some "B")) :: []))
      [("turbine_id", PyStr "B");
       ("timestamp",
        timestamp_so_far telemetry_row
          ([time_field None; ("PA", field "int" "power" (Some "A"))] ++
           [("PB", field "int" "power" (Some "B"))]) PyNone)] = Ok p.
Proof.
  apply (group_payload_is_flat_over_its_fields telemetry_row
           [time_field None; ("PA", field "int" "power" (Some "A"))] []
           "PB" (field "int" "power" (Some "B"))).
  - repeat constructor; discriminate.
  - repeat constructor.
Defined.

(** X9. In the stream T1.F01, when no field of the mapping is tagged
    ["turbine_id"], the messages of a row carry under ["turbine_id"] the
    distinct group keys of the mapping, in the order in which they first
    appear among the declared fields ([None] for the fields without key). *)
Theorem messages_carry_their_group_key `{L : PyLib} (m : mapping) (r : row) (w : world) :
  stream m = "T1.F01" ->
  Forall (fun e => entry_tag e <> "turbine_id") (fields m) ->
  row_coerces (fields m) r ->
  exists msgs,
    run (transform m [r]) w = Ok msgs /\
    map (fun msg => dict_get String.eqb "turbine_id" (msg_payload msg)) msgs =
      map (fun g => Some (tid_value g))
          (first_seen tid_eqb [] (map entry_tid (fields m))).
Proof.
  intros Hs Htags Hok.
  destruct (grouped_fields_total r (fields m) ([], PyNone) Hok) as [[bk te] Hg].
  destruct (transform_telemetry_one_row m r w bk te Hs Hg) as [msgs [Hrun Hpay]].
  exists msgs. split; [exact Hrun|].
  assert (Hinv := grouped_fields_keep_key r (fields m) Htags [] PyNone bk te
                    (Forall_nil _) Hg).
  assert (Hk := grouped_fields_first_seen r (fields m) _ _ _ _ Hg).
  change (dict_keys (@nil (option string * payload))) with (@nil (option string)) in Hk.
  rewrite <- Hk.
  rewrite <- (map_map msg_payload (dict_get String.eqb "turbine_id")), Hpay.
  unfold dict_keys. rewrite !map_map.
  clear - Hinv. induction Hinv as [|[g p] bk Hgp _ IH]; simpl; [reflexivity|].
  simpl in Hgp. now rewrite Hgp, IH.
Qed.

Lemma messages_carry_their_group_key_witness :
  exists msgs,
    run (transform telemetry_shared [telemetry_row]) (fixed_world 0 0) = Ok msgs /\
    map (fun msg => dict_get String.eqb "turbine_id" (msg_payload msg)) msgs =
      map (fun g => Some (tid_value g))
          (first_seen tid_eqb [] (map entry_tid (fields telemetry_shared))).
Proof.
  apply (messages_carry_their_group_key telemetry_shared telemetry_row (fixed_world 0 0)).
  - reflexivity.
  - repeat constructor; discriminate.
  - repeat constructor.
Defined.

(** X10. In the flat streams, the payload of a row has one key per distinct
    tag of the mapping, in the order in which the tags first appear among
    the declared fields, and under each tag the value coerced for the last
    field declared with that tag: a later field with the same tag silently
    replaces the value of an earlier one, and keeps its place. *)
Theorem flat_payload_last_field_wins `{L : PyLib} (m : mapping) (r : row) (w : world) :
  stream m = "T1.F02" \/ stream m = "T2.F01" ->
  row_coerces (fields m) r ->
  exists msg,
    run (transform m [r]) w = Ok [msg] /\
    dict_keys (msg_payload msg) =
      first_seen String.eqb [] (map entry_tag (fields m)) /\
    forall k, dict_get String.eqb k (msg_payload msg) =
              last_tagged r (fields m) k None.
Proof.
  intros Hs Hok.
  destruct (alarm_fields_total r (fields m) [] Hok) as [p Hp].
  destruct (transform_row_flat m r [] w p Hs Hp) as [h [Hrow _]].
  exists {| msg_header := h; msg_payload := p |}.
  unfold run, transform. simpl. unfold mbind. rewrite Hrow. simpl.
  split; [reflexivity|]. split.
  - exact (alarm_fields_first_seen r (fields m) [] p Hp).
  - intros k. exact (alarm_fields_last_tagged r (fields m) [] p Hp k).
Qed.

Lemma flat_payload_last_field_wins_witness :
  exists msg,
    run (transform
           {| stream := "T2.F01"; version := PyStr "1.0";
              fields := [("Wind", field "int" "x" None);
                         ("Power", field "int" "y" None);
                         ("Wind2", field "int" "x" None)] |}
           [[("Wind", PyInt 3); ("Power", PyInt 50); ("Wind2", PyInt 4)]])
        (fixed_world 0 0) = Ok [msg] /\
    dict_keys (msg_payload msg) = ["x"; "y"] /\
    forall k, dict_get String.eqb k (msg_payload msg) =
              last_tagged [("Wind", PyInt 3); ("Power", PyInt 50); ("Wind2", PyInt 4)]
                [("Wind", field "int" "x" None);
                 ("Power", field "int" "y" None);
                 ("Wind2", field "int" "x" None)] k None.
Proof.
  apply (flat_payload_last_field_wins
           {| stream := "T2.F01"; version := PyStr "1.0";
              fields := [("Wind", field "int" "x" None);
                         ("Power", field "int" "y" None);
                         ("Wind2", field "int" "x" None)] |}
           [("Wind", PyInt 3); ("Power", PyInt 50); ("Wind2", PyInt 4)]
           (fixed_world 0 0)).
  - right. reflexivity.
  - repeat constructor.
Defined.

(** ** Cells *)

(** X11. A column of the mapping that the table does not have is read as a
    blank cell: the field gets its default ([None] without one), whatever its
    type, and no error is raised for the missing column. *)
Theorem missing_column_gives_default `{L : PyLib} (r : row) (col : string)
        (cfg : field_cfg) :
  ~ In col (dict_keys r) ->
  parse_value (row_get col r) cfg = Ok (get_default cfg).
Proof.
  intros Hin. unfold row_get.
  apply (dict_get_None_keys String.eqb String.eqb_eq) in Hin.
  unfold row in *. now rewrite Hin.
Qed.

Lemma missing_column_gives_default_witness :
  parse_value (row_get "Desc" [("Code", PyInt 42)])
    {| type := "int"; tag := "description"; default := Some (PyStr "");
       timezone := None; turbine_id := None |}
  = Ok (PyStr "").
Proof.
  apply (missing_column_gives_default [("Code", PyInt 42)] "Desc").
  simpl. intros [H|[]]. discriminate.
Defined.

Lemma float_of_string_error (s : string) (e : exn) :
  Text.float_of_string s = Raise e -> e = Text.invalid_float.
Proof.
  unfold Text.float_of_string.
  destruct (Text.scan_sign _) as [neg l].
  destruct (_ || _); [discriminate|].
  destruct (String.eqb _ "nan"); [discriminate|].
  destruct (Text.scan_digits 0 0 false l) as [[[ip icnt] rest]|];
    [|intros H; now injection H].
  match goal with
  | |- match ?x with _ => _ end = _ -> _ => destruct x as [[[m fcnt] rest']|]
  end; [|intros H; now injection H].
  destruct (0 <? icnt + fcnt); [|intros H; now injection H].
  destruct (Text.scan_exponent rest'); [discriminate | intros H; now injection H].
Qed.

(** X12. A field of one of the types [string], [int], [float] and
    [duration] never raises the "Unsupported type" error, and a field of a
    type outside the five known ones raises it exactly on the non-blank
    cells: a blank cell of such a field still gives the default, so that the
    error of the mapping only shows on the first cell that has a value. *)
Theorem unsupported_type_shows_on_non_blank_cells `{L : PyLib}
        (raw : pyval) (cfg : field_cfg) :
  type cfg <> "datetime" ->
  (parse_value raw cfg = Raise unsupported_type <->
   isna raw = false /\
   type cfg <> "string" /\ type cfg <> "int" /\ type cfg <> "float" /\
   type cfg <> "duration").
Proof.
  intros Hdt. unfold parse_value.
  destruct (isna raw) eqn:Eblank.
  { split; [discriminate | intros [H _]; discriminate]. }
  apply String.eqb_neq in Hdt. rewrite Hdt.
  destruct (String.eqb_spec (type cfg) "string") as [Es|Es].
  { split; [discriminate | tauto]. }
  destruct (String.eqb_spec (type cfg) "int") as [Ei|Ei].
  { split; [|tauto]. intros H. exfalso.
    destruct raw as [| |b|n|f|s|o]; simpl in H; try discriminate.
    - destruct f; simpl in H; discriminate.
    - destruct (Text.int_of_string s) eqn:E; simpl in H; [discriminate|].
      apply int_of_string_error in E as [-> | ->]; discriminate. }
  destruct (String.eqb_spec (type cfg) "float") as [Ef|Ef].
  { split; [|tauto]. intros H. exfalso.
    destruct raw as [| |b|n|f|s|o]; simpl in H; try discriminate.
    - unfold Float.of_int in H.
      destruct (binary_normalize Float.prec Float.emax n 0 false); discriminate.
    - destruct (Text.float_of_string s) eqn:E; simpl in H; [discriminate|].
      apply float_of_string_error in E. subst. discriminate. }
  destruct (String.eqb_spec (type cfg) "duration") as [Ed|Ed].
  { split; [|tauto]. intros H. exfalso. unfold parse_duration, item in H.
    destruct (Text.split ":" (py_str raw)) as [|p0 ps]; simpl in H; [discriminate|].
    destruct (Text.int_of_string p0) eqn:E0; simpl in H;
      [|apply int_of_string_error in E0 as [-> | ->]; discriminate].
    destruct ps as [|p1 ps]; simpl in H; [discriminate|].
    destruct (Text.int_of_string p1) eqn:E1; simpl in H;
      [|apply int_of_string_error in E1 as [-> | ->]; discriminate].
    destruct ps as [|p2 ps]; simpl in H; [discriminate|].
    destruct (Text.float_of_string p2) eqn:E2; simpl in H;
      [|apply float_of_string_error in E2; subst; discriminate].
    unfold Float.of_int in H.
    destruct (binary_normalize Float.prec Float.emax _ 0 false); discriminate. }
  split; [tauto | reflexivity].
Qed.

Lemma unsupported_type_shows_on_non_blank_cells_witness :
  parse_value (PyInt 1) (field "boolean" "flag" None) = Raise unsupported_type.
Proof.
  apply (unsupported_type_shows_on_non_blank_cells (PyInt 1) (field "boolean" "flag" None)).
  - discriminate.
  - repeat split; discriminate.
Defined.

(** ** Numbers written as text *)

Lemma chars_not_word (d : Decimal.uint) (w : string) :
  d <> Decimal.Nil ->
  (w = "inf" \/ w = "infinity" \/ w = "nan") ->
  String.eqb (string_of_list_ascii (map Text.lower (chars d))) w = false.
Proof.
  unfold chars. intros Hd Hw.
  destruct d; try congruence; destruct Hw as [-> | [-> | ->]]; reflexivity.
Qed.

(** [float(str(n))] is the float nearest to [n], an infinity when [n] is out
    of range. *)
Lemma float_of_string_of_int (n : Z) :
  Text.float_of_string (Text.string_of_int n) = Ok (Float.of_dyadic n 0).
Proof.
  destruct n as [|p|p]; [reflexivity| |];
    assert (Hnn := DecimalPos.Unsigned.to_uint_nonnil p);
    destruct (scan_digits_numeral (Pos.to_uint p) Hnn) as [c [Hc H]];
    assert (Hc' : (0 <? c + 0) = true) by (apply Z.ltb_lt; lia);
    unfold Text.float_of_string, Text.string_of_int, NilZero.string_of_int;
    cbn [Z.to_int]; rewrite (string_of_uint_nonnil _ Hnn).
  - change (list_ascii_of_string (NilEmpty.string_of_uint (Pos.to_uint p)))
      with (chars (Pos.to_uint p)).
    rewrite (strip_no_space _ (chars_no_space _)), chars_no_sign.
    rewrite !(chars_not_word _ _ Hnn) by tauto.
    cbn [orb]. rewrite H, Hc', uint_value_to_uint. cbn [Text.scan_exponent].
    unfold Float.of_decimal, Float.of_dyadic. simpl Z.leb. cbv iota.
    now rewrite Z.sub_0_r, Z.pow_0_r, Z.mul_1_r.
  - change (list_ascii_of_string (String "-" (NilEmpty.string_of_uint (Pos.to_uint p))))
      with ("-"%char :: chars (Pos.to_uint p)).
    rewrite strip_no_space by (constructor; [reflexivity | apply chars_no_space]).
    cbn [Text.scan_sign]. simpl Ascii.eqb. cbv iota.
    rewrite !(chars_not_word _ _ Hnn) by tauto.
    cbn [orb]. rewrite H, Hc', uint_value_to_uint. cbn [Text.scan_exponent].
    unfold Float.of_decimal, Float.of_dyadic. simpl Z.leb. cbv iota.
    now rewrite Z.sub_0_r, Z.pow_0_r, Z.mul_1_r.
Qed.

(** X13. For a field of type [float], a text cell holding the decimal
    writing of an integer always coerces, to the float nearest to that
    integer (an infinity when the integer is beyond the range of a float),
    while the same integer as an integer cell raises [OverflowError] when it
    is beyond that range and gives the same float otherwise. *)
Theorem float_coercion_of_integers `{L : PyLib} (cfg : field_cfg) (n : Z) :
  type cfg = "float" ->
  parse_value (PyStr (Text.string_of_int n)) cfg = Ok (PyFloat (Float.of_dyadic n 0)) /\
  parse_value (PyInt n) cfg =
    match Float.of_dyadic n 0 with
    | S754_infinity _ => Raise OverflowError
    | f => Ok (PyFloat f)
    end.
Proof.
  intros Hty. unfold parse_value. rewrite Hty.
  change (String.eqb "float" "string") with false.
  change (String.eqb "float" "int") with false.
  change (String.eqb "float" "float") with true.
  cbn [isna py_float bind]. split.
  - now rewrite float_of_string_of_int.
  - unfold Float.of_int, Float.of_dyadic.
    now destruct (binary_normalize Float.prec Float.emax n 0 false).
Qed.

Lemma float_coercion_of_integers_witness :
  parse_value (PyStr (Text.string_of_int (10 ^ 400))) (field "float" "power" None) =
    Ok (PyFloat (Float.of_dyadic (10 ^ 400) 0)) /\
  parse_value (PyInt (10 ^ 400)) (field "float" "power" None) =
    match Float.of_dyadic (10 ^ 400) 0 with
    | S754_infinity _ => Raise OverflowError
    | f => Ok (PyFloat f)
    end.
Proof.
  apply (float_coercion_of_integers (field "float" "power" None) (10 ^ 400)).
  reflexivity.
Defined.

(** ** Durations written from integers *)

Lemma split_no_colon (c : ascii) (s : string) :
  count_char c s = 0%nat -> Text.split c s = [s].
Proof.
  induction s as [|c' s IH]; simpl; [reflexivity|].
  destruct (Ascii.eqb c' c); [discriminate|].
  intros H. now rewrite (IH H).
Qed.

Lemma split_app_sep (c : ascii) (a b : string) :
  count_char c a = 0%nat ->
  Text.split c (a ++ String c b) = a :: Text.split c b.
Proof.
  induction a as [|c' a IH]; simpl.
  - intros _. now rewrite Ascii.eqb_refl.
  - destruct (Ascii.eqb c' c); [discriminate|].
    intros H. now rewrite (IH H).
Qed.

Lemma uint_no_colon (d : Decimal.uint) :
  count_char ":" (NilEmpty.string_of_uint d) = 0%nat.
Proof. induction d; simpl; assumption || reflexivity. Qed.

Lemma string_of_int_no_colon (n : Z) :
  count_char ":" (Text.string_of_int n) = 0%nat.
Proof.
  destruct n as [|p|p]; [reflexivity| |];
    unfold Text.string_of_int, NilZero.string_of_int; cbn [Z.to_int];
    rewrite (string_of_uint_nonnil _ (DecimalPos.Unsigned.to_uint_nonnil p)).
  - apply uint_no_colon.
  - simpl. apply uint_no_colon.
Qed.

(** X14. For a field of type [duration], a text made of the decimal
    writings of two integers [H] and [M] and of a last part [s] without
    colon, joined by colons, coerces to [float(H*3600 + M*60) + float(s)]
    for all integers [H] and [M] of at most 4300 digits: the minutes are not
    required to lie below 60, nor the hours to be positive, and the only
    errors are then those of [float(s)] and, after it, of the conversion of
    [H*3600 + M*60].  When [H] or [M] has more than 4300 digits, [int]
    refuses it. *)
Theorem duration_of_written_integers `{L : PyLib} (cfg : field_cfg)
        (H M : Z) (s : string) :
  type cfg = "duration" ->
  count_char ":" s = 0%nat ->
  parse_value
    (PyStr (Text.string_of_int H ++ ":" ++ Text.string_of_int M ++ ":" ++ s)) cfg =
    if (Z.abs H <? 10 ^ 4300) && (Z.abs M <? 10 ^ 4300) then
      (S <- Text.float_of_string s ;;
       W <- Float.of_int (H * 3600 + M * 60) ;;
       Ok (PyFloat (Float.add W S)))
    else Raise Text.int_too_long.
Proof.
  intros Hty Hs. unfold parse_value. rewrite Hty.
  change (String.eqb "duration" "string") with false.
  change (String.eqb "duration" "int") with false.
  change (String.eqb "duration" "float") with false.
  change (String.eqb "duration" "datetime") with false.
  change (String.eqb "duration" "duration") with true.
  cbn [isna py_str]. unfold parse_duration. cbn [py_str].
  change (Text.string_of_int H ++ ":" ++ Text.string_of_int M ++ ":" ++ s)%string
    with (Text.string_of_int H ++ String ":" (Text.string_of_int M ++ String ":" s))%string.
  rewrite (split_app_sep ":" _ _ (string_of_int_no_colon H)).
  rewrite (split_app_sep ":" _ _ (string_of_int_no_colon M)).
  rewrite (split_no_colon ":" s Hs).
  unfold item. cbn [nth_error bind].
  rewrite !int_of_string_of_int. change Text.int_max_str_digits with 4300.
  destruct (Z.abs H <? 10 ^ 4300); cbn [bind andb]; [|reflexivity].
  now destruct (Z.abs M <? 10 ^ 4300).
Qed.

Lemma duration_of_written_integers_witness :
  parse_value
    (PyStr (Text.string_of_int (-1) ++ ":" ++ Text.string_of_int 90 ++ ":" ++ "30.5"))
    (field "duration" "downtime" None) =
    (S <- Text.float_of_string "30.5" ;;
     W <- Float.of_int (-1 * 3600 + 90 * 60) ;;
     Ok (PyFloat (Float.add W S))).
Proof.
  rewrite (duration_of_written_integers (field "duration" "downtime" None) (-1) 90 "30.5"
             eq_refl eq_refl).
  vm_compute. reflexivity.
Defined.

(** ** Dates *)



(** ** The keys of a telemetry payload *)

Section TelemetryKeys.

Context {L : PyLib}.

Lemma first_seen_app {K : Type} (eqb : K -> K -> bool) (l1 l2 seen : list K) :
  first_seen eqb seen (l1 ++ l2) = first_seen eqb (first_seen eqb seen l1) l2.
Proof.
  revert seen. induction l1 as [|k l1 IH]; intros seen; simpl; [reflexivity|].
  apply IH.
Qed.

Lemma group_fields_app (g : option string) (fs1 fs2 : list (string * field_cfg)) :
  group_fields g (fs1 ++ fs2) = (group_fields g fs1 ++ group_fields g fs2)%list.
Proof. apply filter_app. Qed.

Lemma dict_get_of_In {V : Type} (k : option string) (v : V)
      (d : list (option string * V)) :
  NoDup (dict_keys d) -> In (k, v) d -> dict_get tid_eqb k d = Some v.
Proof.
  induction d as [|[k' v'] d IH]; simpl; intros Hnd Hin; [destruct Hin|].
  inversion Hnd as [|? ? Hnot Hnd']; subst.
  destruct Hin as [Heq|Hin].
  - injection Heq as -> ->. now rewrite (proj2 (tid_eqb_eq _ _) eq_refl).
  - destruct (tid_eqb k k') eqn:E.
    + apply tid_eqb_eq in E. subst k'. exfalso. apply Hnot.
      unfold dict_keys. apply in_map_iff. now exists (k, v).
    + now apply IH.
Qed.

(** The keys of each bucket: the two keys of the seed, then the tags of the
    fields of the group, in first-sight order. *)
Lemma bucket_keys_step (done : list (string * field_cfg)) (bk : buckets)
      (col : string) (cfg : field_cfg) (val te1 : pyval) :
  buckets_of done bk ->
  (forall g p, dict_get tid_eqb g bk = Some p ->
               dict_keys p = first_seen String.eqb ["turbine_id"; "timestamp"]
                               (map entry_tag (group_fields g done))) ->
  forall g p,
    dict_get tid_eqb g
      (dict_set tid_eqb (turbine_id cfg)
         (dict_set String.eqb (tag cfg) val
            match dict_get tid_eqb (turbine_id cfg) bk with
            | Some q => q
            | None => [("turbine_id", tid_value (turbine_id cfg)); ("timestamp", te1)]
            end) bk) = Some p ->
    dict_keys p = first_seen String.eqb ["turbine_id"; "timestamp"]
                    (map entry_tag (group_fields g (done ++ [(col, cfg)]))).
Proof.
  intros [Hkeys _] Hinv g p Hg.
  rewrite group_fields_app, map_app, first_seen_app.
  change (group_fields g [(col, cfg)])
    with (if tid_eqb (turbine_id cfg) g then [(col, cfg)] else []).
  destruct (tid_eqb (turbine_id cfg) g) eqn:Eg.
  - apply tid_eqb_eq in Eg. subst g.
    rewrite (dict_get_set_same tid_eqb tid_eqb_eq) in Hg. injection Hg as <-.
    rewrite (dict_keys_set String.eqb), (dict_mem_existsb String.eqb).
    change (map entry_tag [(col, cfg)]) with [tag cfg]. cbn [first_seen].
    unfold buckets, payload in *.
    destruct (dict_get tid_eqb (turbine_id cfg) bk) as [q|] eqn:Eq.
    + now rewrite (Hinv _ _ Eq).
    + assert (Hnone : group_fields (turbine_id cfg) done = []).
      { apply group_fields_none. apply Forall_forall. intros e He Ht.
        apply (dict_get_None_keys tid_eqb tid_eqb_eq) in Eq. apply Eq.
        apply Hkeys. now exists e. }
      now rewrite Hnone.
  - rewrite (dict_get_set_other tid_eqb tid_eqb_eq) in Hg.
    + cbn [map first_seen]. now apply Hinv.
    + intros ->. now rewrite (proj2 (tid_eqb_eq _ _) eq_refl) in Eg.
Qed.

Lemma bucket_keys_fields (r : row) (fs : list (string * field_cfg)) :
  forall done bk te bk' te',
    buckets_of done bk ->
    (forall g p, dict_get tid_eqb g bk = Some p ->
                 dict_keys p = first_seen String.eqb ["turbine_id"; "timestamp"]
                                 (map entry_tag (group_fields g done))) ->
    grouped_fields r fs (bk, te) = Ok (bk', te') ->
    forall g p, dict_get tid_eqb g bk' = Some p ->
                dict_keys p = first_seen String.eqb ["turbine_id"; "timestamp"]
                                (map entry_tag (group_fields g (done ++ fs))).
Proof.
  induction fs as [|[col cfg] fs IH]; intros done bk te bk' te' Hbk Hinv H.
  - simpl in H. injection H as <- <-. now rewrite app_nil_r.
  - apply grouped_fields_cons in H as [val [E H]]. cbv zeta in H.
    intros g p Hg.
    replace (done ++ (col, cfg) :: fs)%list with ((done ++ [(col, cfg)]) ++ fs)%list
      by now rewrite <- app_assoc.
    eapply IH; [| |exact H|exact Hg].
    + now apply buckets_of_step.
    + now apply bucket_keys_step.
Qed.

End TelemetryKeys.

(** X16. In the stream T1.F01, every message of a row has ["turbine_id"]
    and ["timestamp"] as its first two keys, followed by the tags of the
    fields that carry its group key, each once, in the order in which they
    first appear among the declared fields. *)
Theorem telemetry_payload_keys `{L : PyLib} (m : mapping) (r : row) (w : world) :
  stream m = "T1.F01" ->
  row_coerces (fields m) r ->
  exists msgs bk te,
    grouped_fields r (fields m) ([], PyNone) = Ok (bk, te) /\
    run (transform m [r]) w = Ok msgs /\
    map msg_payload msgs = map snd bk /\
    Forall (fun gp =>
              dict_keys (snd gp) =
                ("turbine_id" :: "timestamp" ::
                 skipn 2 (first_seen String.eqb ["turbine_id"; "timestamp"]
                            (map entry_tag (group_fields (fst gp) (fields m))))) /\
              dict_keys (snd gp) =
                first_seen String.eqb ["turbine_id"; "timestamp"]
                  (map entry_tag (group_fields (fst gp) (fields m))))
           bk.
Proof.
  intros Hs Hok.
  destruct (grouped_fields_total r (fields m) ([], PyNone) Hok) as [[bk te] Hg].
  destruct (transform_telemetry_one_row m r w bk te Hs Hg) as [msgs [Hrun Hpay]].
  exists msgs, bk, te. split; [exact Hg|]. split; [exact Hrun|]. split; [exact Hpay|].
  assert (Hnd : NoDup (dict_keys bk)).
  { now apply (grouped_fields_keys r (fields m) [] PyNone bk te (NoDup_nil _)) in Hg. }
  assert (Hinv := bucket_keys_fields r (fields m) [] [] PyNone bk te buckets_of_nil).
  simpl in Hinv.
  apply Forall_forall. intros [g p] Hin. simpl.
  assert (Hk : dict_keys p =
               first_seen String.eqb ["turbine_id"; "timestamp"]
                 (map entry_tag (group_fields g (fields m)))).
  { apply (Hinv ltac:(intros ? ? H; discriminate) Hg g p).
    now apply dict_get_of_In. }
  split; [|exact Hk]. rewrite Hk.
  (* the keys already seen stay in front *)
  generalize (map entry_tag (group_fields g (fields m))).
  assert (Hpre : forall l seen,
             exists tl, first_seen String.eqb ("turbine_id" :: "timestamp" :: seen) l =
                        "turbine_id" :: "timestamp" :: tl).
  { induction l as [|k l IH]; intros seen; simpl.
    - now exists seen.
    - destruct (_ || _); apply IH || (destruct (IH (seen ++ [k])%list) as [tl Htl];
        now exists tl). }
  intros l. destruct (Hpre l []) as [tl ->]. reflexivity.
Qed.

Lemma telemetry_payload_keys_witness :
  exists msgs bk te,
    grouped_fields telemetry_row (fields telemetry_shared) ([], PyNone) = Ok (bk, te) /\
    run (transform telemetry_shared [telemetry_row]) (fixed_world 0 0) = Ok msgs /\
    map msg_payload msgs = map snd bk /\
    Forall (fun gp =>
              dict_keys (snd gp) =
                ("turbine_id" :: "timestamp" ::
                 skipn 2 (first_seen String.eqb ["turbine_id"; "timestamp"]
                            (map entry_tag
                               (group_fields (fst gp) (fields telemetry_shared))))) /\
              dict_keys (snd gp) =
                first_seen String.eqb ["turbine_id"; "timestamp"]
                  (map entry_tag (group_fields (fst gp) (fields telemetry_shared))))
           bk.
Proof.
  apply (telemetry_payload_keys telemetry_shared telemetry_row (fixed_world 0 0)).
  - reflexivity.
  - repeat constructor.
Defined.
